(** * The MCP client of claudius (src/agent/mcp_client.py)

    A shallow embedding of class [MCPClient]: the registry of server
    entries, the request-id counter, the handshake, tool calls and the
    teardown pass, followed by the properties of the specification that
    concern them.  With it come the two places that feed the client:
    [load_mcp_servers] (src/agent/config.py), which reads the list of
    servers, and [ResearchAgent.gather_context] (src/agent/research.py),
    which connects them and asks each for its context.

    Conventions of the embedding.
    - A Python [str] is a [string]; each character stands for the code
      point of the same number (0..255).
    - A value produced by [json.loads] is a [json]; numbers are integers.
    - A Python [dict] is an association list in insertion order, looked up
      by first occurrence of the key.
    - An exception is a class and the text [str(e)] yields.  The texts of
      the interpreter's own errors are those of CPython 3.12.
    - The child processes are the environment: what each of them answers
      and how it behaves at shutdown is data carried by the process.
    - A call returns a value, raises, or does not return: an [await] on a
      read or on a wait without a timeout that the process never answers
      gives the outcome [Blocked], which no [except] clause sees. *)

From Stdlib Require Import ZArith List String Ascii Bool Lia DecimalString.
From Stdlib Require Import Sorted FinFun.
Import ListNotations.

Local Open Scope string_scope.
Local Open Scope Z_scope.

(** ** Python strings *)

Module PyStr.

(** [sub in s] for two strings: [sub] occurs in [s] as a contiguous run. *)
Fixpoint contains (sub s : string) : bool :=
  String.prefix sub s ||
  match s with
  | EmptyString => false
  | String _ s' => contains sub s'
  end.

Fixpoint chars (s : string) : list ascii :=
  match s with
  | EmptyString => []
  | String c s' => c :: chars s'
  end.

Definition code (c : ascii) : N := N_of_ascii c.

Definition hex_digit (n : N) : ascii :=
  match n with
  | 0%N => "0" | 1%N => "1" | 2%N => "2" | 3%N => "3"
  | 4%N => "4" | 5%N => "5" | 6%N => "6" | 7%N => "7"
  | 8%N => "8" | 9%N => "9" | 10%N => "a" | 11%N => "b"
  | 12%N => "c" | 13%N => "d" | 14%N => "e" | _ => "f"
  end%char.

(** [\xhh], the escape [repr] uses for a code point below 256. *)
Definition hex_escape (c : ascii) : string :=
  String "\" (String "x"
    (String (hex_digit (code c / 16)) (String (hex_digit (code c mod 16)) ""))).

(** [str.isprintable] on one code point below 256: the controls
    (0..31, 127..159), the no-break space 160 and the soft hyphen 173 are
    not printable. *)
Definition isprintable (c : ascii) : bool :=
  let n := code c in
  ((32 <=? n) && (n <? 127) || (161 <=? n) && negb (n =? 173))%N.

Definition has (c : ascii) (s : string) : bool :=
  existsb (Ascii.eqb c) (chars s).

Definition dquote : ascii := ascii_of_N 34.

(** The quote [repr] encloses the string in: a double quote when the
    string has a single quote and no double quote, a single quote
    otherwise. *)
Definition repr_quote (s : string) : ascii :=
  if has "'" s && negb (has dquote s) then dquote else "'"%char.

Definition tab : ascii := ascii_of_N 9.
Definition newline : ascii := ascii_of_N 10.
Definition creturn : ascii := ascii_of_N 13.

(** Whether [repr] writes [c] otherwise than as itself. *)
Definition escaped (quote c : ascii) : bool :=
  Ascii.eqb c quote || Ascii.eqb c "\" || negb (isprintable c).

Definition repr_char (quote c : ascii) : string :=
  if Ascii.eqb c quote || Ascii.eqb c "\" then String "\" (String c "")
  else if Ascii.eqb c tab then "\t"
  else if Ascii.eqb c newline then "\n"
  else if Ascii.eqb c creturn then "\r"
  else if isprintable c then String c ""
  else hex_escape c.

Fixpoint repr_body (quote : ascii) (s : string) : string :=
  match s with
  | EmptyString => EmptyString
  | String c s' => repr_char quote c ++ repr_body quote s'
  end.

(** [repr(s)] *)
Definition repr (s : string) : string :=
  let q := repr_quote s in
  String q (repr_body q s ++ String q "").

(** [", ".join(parts)] *)
Definition join (sep : string) (parts : list string) : string :=
  String.concat sep parts.

(** [str.lower] on one code point below 256: the letters A..Z and the
    capitals of Latin-1 (192..222, the multiplication sign 215 apart) go
    32 up, every other one stays. *)
Definition lower_char (c : ascii) : ascii :=
  let n := code c in
  if ((65 <=? n) && (n <=? 90)
      || (192 <=? n) && (n <=? 222) && negb (n =? 215))%N
  then ascii_of_N (n + 32) else c.

(** [s.lower()] *)
Fixpoint lower (s : string) : string :=
  match s with
  | EmptyString => EmptyString
  | String c s' => String (lower_char c) (lower s')
  end.

End PyStr.

(** ** Values decoded from JSON *)

(** The values the client receives, keeps and sends.  Each of them has an
    encoding, so that [json.dumps] of a request built from them returns;
    arguments of a tool call that are no JSON value are not covered. *)

#[local] Set Warnings "-register-all".

Inductive json : Type :=
| JNull
| JBool (b : bool)
| JInt (z : Z)
| JStr (s : string)
| JList (items : list json)
| JDict (fields : list (string * json)).

(** ** Exceptions *)

Inductive exn_class : Type :=
| PyException        (* raise Exception(...) *)
| JSONDecodeError
| UnicodeDecodeError
| TimeoutError
| TypeError
| AttributeError
| KeyError
| ValueError
| OSError.

Record exn : Type := Exc { exn_cls : exn_class; exn_str : string }.

(** What an evaluation comes to: a value, an exception, or nothing at all
    when it waits for something that never comes.  Only an [await] can
    block; what blocks is not an exception and no handler sees it. *)
Inductive res (A : Type) : Type :=
| Ok (a : A)
| Raise (e : exn)
| Blocked.
Arguments Ok {A} a.
Arguments Raise {A} e.
Arguments Blocked {A}.

(** ** Dictionaries in insertion order *)

Module Dict.
Section Dict.
Context {V : Type}.

Definition t := list (string * V).

Fixpoint get (k : string) (d : t) : option V :=
  match d with
  | [] => None
  | (k', v) :: d' => if String.eqb k k' then Some v else get k d'
  end.

(** [d[k] = v]: the value is replaced where the key stands, a new key
    goes to the end. *)
Fixpoint set (k : string) (v : V) (d : t) : t :=
  match d with
  | [] => [(k, v)]
  | (k', v') :: d' =>
      if String.eqb k k' then (k, v) :: d' else (k', v') :: set k v d'
  end.

Definition mem (k : string) (d : t) : bool :=
  match get k d with Some _ => true | None => false end.

(** [d.get(k, default)] *)
Definition get_or (k : string) (d : t) (default : V) : V :=
  match get k d with Some v => v | None => default end.
End Dict.
Arguments t V : clear implicits.
End Dict.

(** ** The operations of Python the client applies to decoded values *)

Module Py.

Definition type_name (v : json) : string :=
  match v with
  | JNull => "NoneType"
  | JBool _ => "bool"
  | JInt _ => "int"
  | JStr _ => "str"
  | JList _ => "list"
  | JDict _ => "dict"
  end.

Definition is_str (k : string) (v : json) : bool :=
  match v with JStr s => String.eqb k s | _ => false end.

(** [k in v] for a string [k]. *)
Definition contains (k : string) (v : json) : res bool :=
  match v with
  | JDict fields => Ok (Dict.mem k fields)
  | JList items => Ok (existsb (is_str k) items)
  | JStr s => Ok (PyStr.contains k s)
  | _ => Raise (Exc TypeError
           ("argument of type '" ++ type_name v ++ "' is not iterable"))
  end.

(** [v[k]] for a string [k]. *)
Definition getitem (v : json) (k : string) : res json :=
  match v with
  | JDict fields =>
      match Dict.get k fields with
      | Some x => Ok x
      | None => Raise (Exc KeyError (PyStr.repr k))
      end
  | JList _ =>
      Raise (Exc TypeError "list indices must be integers or slices, not str")
  | JStr _ =>
      Raise (Exc TypeError "string indices must be integers, not 'str'")
  | _ => Raise (Exc TypeError
           ("'" ++ type_name v ++ "' object is not subscriptable"))
  end.

(** [v.get(k, default)] *)
Definition get (v : json) (k : string) (default : json) : res json :=
  match v with
  | JDict fields =>
      Ok (Dict.get_or k fields default)
  | _ => Raise (Exc AttributeError
           ("'" ++ type_name v ++ "' object has no attribute 'get'"))
  end.

(** The elements [for t in v] goes through. *)
Definition iter (v : json) : res (list json) :=
  match v with
  | JList items => Ok items
  | JStr s => Ok (map (fun c => JStr (String c "")) (PyStr.chars s))
  | JDict fields => Ok (map (fun kv => JStr (fst kv)) fields)
  | _ => Raise (Exc TypeError
           ("'" ++ type_name v ++ "' object is not iterable"))
  end.

Definition decimal (z : Z) : string := NilZero.string_of_int (Z.to_int z).

(** [repr(v)] *)
Fixpoint repr (v : json) : string :=
  match v with
  | JNull => "None"
  | JBool true => "True"
  | JBool false => "False"
  | JInt z => decimal z
  | JStr s => PyStr.repr s
  | JList items => "[" ++ PyStr.join ", " (map repr items) ++ "]"
  | JDict fields =>
      "{" ++ PyStr.join ", "
               (map (fun kv => PyStr.repr (fst kv) ++ ": " ++ repr (snd kv))
                    fields) ++ "}"
  end.

(** [str(v)], what an f-string writes for [{v}]. *)
Definition str (v : json) : string :=
  match v with
  | JStr s => s
  | _ => repr v
  end.

(** [bool(v)], the test [if v] makes. *)
Definition truthy (v : json) : bool :=
  match v with
  | JNull => false
  | JBool b => b
  | JInt z => negb (z =? 0)
  | JStr s => negb (String.eqb s "")
  | JList items => match items with [] => false | _ => true end
  | JDict fields => match fields with [] => false | _ => true end
  end.

End Py.

(** ** The environment: child processes *)

(** One line read from a child's standard output, by what the client's
    decoding makes of it. *)
Inductive line : Type :=
| Text (v : json)            (* decodes, and parses to [v] *)
| NotUtf8 (msg : string)     (* [decode("utf-8")] raises UnicodeDecodeError *)
| NotJson (msg : string).    (* [json.loads] raises JSONDecodeError *)

(** What one [readline()] on a child's standard output comes to. *)
Inductive read : Type :=
| Line (l : line)            (* a line is read *)
| OverLimit (msg : string)   (* the line is longer than the limit of the
                                stream, 64 KiB: [readline] raises ValueError *)
| Silent.                    (* nothing comes and the output stays open:
                                [readline] never returns *)
Coercion Line : line >-> read.

(** What [process.wait()] comes to.  The wait returns once the process has
    exited and its pipes are closed. *)
Inductive wait_outcome : Type :=
| Exits (rc : Z)             (* the wait returns *)
| TimesOut                   (* the wait does not return: under
                                [asyncio.wait_for] asyncio.TimeoutError is
                                raised, without a timeout it lasts for ever *)
| WaitFails (msg : string).  (* the wait raises another error *)

(** The behaviour of a child process, fixed by the environment.
    [writes] gives, for each coming write to its standard input, the error
    the write raises, if any (none once the list is used up); [stdout] what
    the coming reads of its output come to, followed by end of file;
    [graceful] what the wait after its input is closed comes to, and
    [final_wait] what the wait after the termination signal comes to. *)
Record peer : Type := Peer {
  writes : list (option string);
  stdout : list read;
  close_fault : option string;       (* [stdin.close()] raises *)
  graceful : wait_outcome;
  terminate_fault : option string;   (* [terminate()] raises *)
  final_wait : wait_outcome
}.

(** A process object.  [returncode] is what the object shows when it is
    read: asyncio sets it when it sees the child exit, which the embedding
    does not follow, so that a property may only rely on the value it is
    given. *)
Record process : Type := Process {
  pid : nat;
  stdin : bool;                      (* [process.stdin] is a pipe *)
  returncode : option Z;
  behaviour : peer
}.

(** What the client does to the environment, in order. *)
Inductive event : Type :=
| Spawn (p : nat) (command : string) (args env : json)
| Write (p : nat) (request : json)
| CloseStdin (p : nat)
| WaitFor (p : nat) (seconds : Z)
| Terminate (p : nat)
| Wait (p : nat)
| Print (text : string).

(** ** The client *)

(** An entry of [self.servers]. *)
Record server : Type := Server {
  process_ : process;
  command : string;
  args : json;
  available_tools : json
}.

Record state : Type := State {
  servers : Dict.t server;           (* self.servers *)
  request_id : Z;                    (* self.request_id *)
  spawned : nat;                     (* processes started so far *)
  log : list event
}.

(** Computations of the client: they read and change the state and
    return, raise or block; what was changed before a raise, or before the
    await that blocks, stays changed. *)
Definition M (A : Type) : Type := state -> res A * state.

Definition ret {A} (a : A) : M A := fun s => (Ok a, s).
Definition raise {A} (e : exn) : M A := fun s => (Raise e, s).
Definition block {A} : M A := fun s => (Blocked, s).
Definition bind {A B} (m : M A) (k : A -> M B) : M B :=
  fun s => match m s with
           | (Ok a, s') => k a s'
           | (Raise e, s') => (Raise e, s')
           | (Blocked, s') => (Blocked, s')
           end.

(** [try: body / except Exception as e: handler e] *)
Definition try_except {A} (body : M A) (handler : exn -> M A) : M A :=
  fun s => match body s with
           | (Ok a, s') => (Ok a, s')
           | (Raise e, s') => handler e s'
           | (Blocked, s') => (Blocked, s')
           end.

Definition lift {A} (r : res A) : M A := fun s => (r, s).
Definition gets {A} (f : state -> A) : M A := fun s => (Ok (f s), s).
Definition emit (e : event) : M unit :=
  fun s => (Ok tt, State (servers s) (request_id s) (spawned s) (log s ++ [e])).
Definition set_servers (d : Dict.t server) : M unit :=
  fun s => (Ok tt, State d (request_id s) (spawned s) (log s)).

Declare Scope py_scope.
Delimit Scope py_scope with py.
Notation "x <- m ;; k" := (bind m (fun x => k))
  (at level 61, m at next level, right associativity) : py_scope.
Notation "m ;; k" := (bind m (fun _ => k))
  (at level 61, right associativity) : py_scope.
Local Open Scope py_scope.

Fixpoint for_each {A} (items : list A) (body : A -> M unit) : M unit :=
  match items with
  | [] => ret tt
  | x :: rest => body x ;; for_each rest body
  end.

Fixpoint map_res {A B} (f : A -> res B) (l : list A) : res (list B) :=
  match l with
  | [] => Ok []
  | x :: rest =>
      match f x with
      | Raise e => Raise e
      | Blocked => Blocked
      | Ok y => match map_res f rest with
                | Raise e => Raise e
                | Blocked => Blocked
                | Ok ys => Ok (y :: ys)
                end
      end
  end.

Definition exception (msg : string) : exn := Exc PyException msg.

Module Proc.

(** [asyncio.create_subprocess_exec(command, *args, ..., env=server_env)]:
    the operating system starts the process, which then behaves as [os]
    says, or refuses. *)
Definition create_subprocess_exec (command : string) (args env : json)
    (os : res peer) : M process :=
  match os with
  | Raise e => raise e
  | Blocked => block
  | Ok b =>
      p <- gets spawned ;;
      (fun s => (Ok tt, State (servers s) (request_id s) (S (spawned s)) (log s))) ;;
      emit (Spawn p command args env) ;;
      ret (Process p true None b)
  end.

(** The process of entry [name], as it is now. *)
Definition update (name : string) (f : process -> process) : M unit :=
  d <- gets servers ;;
  match Dict.get name d with
  | None => ret tt
  | Some sv =>
      set_servers (Dict.set name
        (Server (f (process_ sv)) (command sv) (args sv) (available_tools sv)) d)
  end.

(** The process object [p] refers to, as it is now: the model keeps it
    inside the entry [name]. *)
Definition current (name : string) (p : process) : M process :=
  d <- gets servers ;;
  ret (match Dict.get name d with Some sv => process_ sv | None => p end).

Definition set_writes (ws : list (option string)) (p : process) : process :=
  let b := behaviour p in
  Process (pid p) (stdin p) (returncode p)
    (Peer ws (stdout b) (close_fault b) (graceful b)
          (terminate_fault b) (final_wait b)).

Definition set_stdout (ls : list read) (p : process) : process :=
  let b := behaviour p in
  Process (pid p) (stdin p) (returncode p)
    (Peer (writes b) ls (close_fault b) (graceful b)
          (terminate_fault b) (final_wait b)).

(** [process.stdin.write(bytes); await process.stdin.drain()], the bytes
    being the encoding of [request]. *)
Definition stdin_write (name : string) (p : process) (request : json) : M unit :=
  emit (Write (pid p) request) ;;
  q <- current name p ;;
  match writes (behaviour q) with
  | [] => ret tt
  | w :: rest =>
      update name (set_writes rest) ;;
      match w with
      | None => ret tt
      | Some msg => raise (Exc OSError msg)
      end
  end.

(** [await process.stdout.readline()]: the next line, or nothing at end
    of file; a line over the limit of the stream is dropped and ValueError
    raised; on a silent process the read never returns. *)
Definition stdout_readline (name : string) (p : process) : M (option line) :=
  q <- current name p ;;
  match stdout (behaviour q) with
  | [] => ret None
  | Line l :: rest => update name (set_stdout rest) ;; ret (Some l)
  | OverLimit msg :: rest =>
      update name (set_stdout rest) ;; raise (Exc ValueError msg)
  | Silent :: _ => block
  end.

(** [json.loads(response_line.decode("utf-8"))] *)
Definition json_loads_decode (l : line) : M json :=
  match l with
  | Text v => ret v
  | NotUtf8 msg => raise (Exc UnicodeDecodeError msg)
  | NotJson msg => raise (Exc JSONDecodeError msg)
  end.

Definition fault (f : option string) : M unit :=
  match f with
  | None => ret tt
  | Some msg => raise (Exc OSError msg)
  end.

Definition stdin_close (p : process) : M unit :=
  emit (CloseStdin (pid p)) ;; fault (close_fault (behaviour p)).

Definition wait_for (p : process) (timeout : Z) : M unit :=
  emit (WaitFor (pid p) timeout) ;;
  match graceful (behaviour p) with
  | Exits _ => ret tt
  | TimesOut => raise (Exc TimeoutError "")
  | WaitFails msg => raise (Exc OSError msg)
  end.

Definition terminate (p : process) : M unit :=
  emit (Terminate (pid p)) ;; fault (terminate_fault (behaviour p)).

(** [await process.wait()], without a timeout. *)
Definition wait (p : process) : M unit :=
  emit (Wait (pid p)) ;;
  match final_wait (behaviour p) with
  | Exits _ => ret tt
  | TimesOut => block
  | WaitFails msg => raise (Exc OSError msg)
  end.

End Proc.

Module MCPClient.

(** [MCPClient()] : no server, counter at 0, nothing done yet. *)
Definition __init__ : state := State [] 0 0%nat [].

Definition servers_get (name : string) : M (option server) :=
  gets (fun s => Dict.get name (servers s)).

(** [self.servers[name] = entry] *)
Definition servers_setitem (name : string) (entry : server) : M unit :=
  d <- gets servers ;; set_servers (Dict.set name entry d).

(** [server["available_tools"] = tools], [server] being the entry
    [self.servers[name]]. *)
Definition set_available_tools (name : string) (tools : json) : M unit :=
  d <- gets servers ;;
  match Dict.get name d with
  | None => ret tt
  | Some sv =>
      set_servers (Dict.set name
        (Server (process_ sv) (command sv) (args sv) tools) d)
  end.

Definition _next_request_id : M Z :=
  fun s =>
    let n := request_id s + 1 in
    (Ok n, State (servers s) n (spawned s) (log s)).

Definition request (id : Z) (method : string) (params : json) : json :=
  JDict [("jsonrpc", JStr "2.0"); ("id", JInt id);
         ("method", JStr method); ("params", params)].

Definition _send_request (server_name : string) (request : json) : M json :=
  server <- servers_get server_name ;;
  match server with
  | None => raise (exception ("Server '" ++ server_name ++ "' not found"))
  | Some server =>
      let process := process_ server in
      try_except
        (Proc.stdin_write server_name process request ;;
         response_line <- Proc.stdout_readline server_name process ;;
         match response_line with
         | None => raise (exception "Server closed connection")
         | Some l => Proc.json_loads_decode l
         end)
        (fun e =>
           match exn_cls e with
           | JSONDecodeError =>
               raise (exception
                 ("Invalid JSON response from server: " ++ exn_str e))
           | _ =>
               raise (exception
                 ("Communication error with server: " ++ exn_str e))
           end)
  end.

Definition init_params : json :=
  JDict [("protocolVersion", JStr "2024-11-05");
         ("capabilities", JDict []);
         ("clientInfo",
          JDict [("name", JStr "claudius"); ("version", JStr "0.1.0")])].

Definition _initialize_server (name : string) : M unit :=
  server <- servers_get name ;;
  match server with
  | None => raise (exception ("Server '" ++ name ++ "' not found"))
  | Some _ =>
      try_except
        (id <- _next_request_id ;;
         let init_request := request id "initialize" init_params in
         _ <- _send_request name init_request ;;
         id <- _next_request_id ;;
         let tools_request := request id "tools/list" (JDict []) in
         tools_response <- _send_request name tools_request ;;
         has_result <- lift (Py.contains "result" tools_response) ;;
         if has_result : bool then
           result <- lift (Py.getitem tools_response "result") ;;
           has_tools <- lift (Py.contains "tools" result) ;;
           if has_tools : bool then
             result <- lift (Py.getitem tools_response "result") ;;
             tools <- lift (Py.getitem result "tools") ;;
             set_available_tools name tools
           else ret tt
         else ret tt)
        (fun e =>
           raise (exception
             ("Failed to initialize server '" ++ name ++ "': " ++ exn_str e)))
  end.

Definition connect_server (name command : string) (config : Dict.t json)
    (os : res peer) : M unit :=
  try_except
    (let args := Dict.get_or "args" config (JList []) in
     let env := Dict.get_or "env" config (JDict []) in
     process <- Proc.create_subprocess_exec command args env os ;;
     servers_setitem name (Server process command args (JList [])) ;;
     _initialize_server name)
    (fun e =>
       raise (exception
         ("Failed to connect to MCP server '" ++ name ++ "': " ++ exn_str e))).

(** [[t.get("name") for t in server["available_tools"]]] *)
Definition tool_names (sv : server) : res (list json) :=
  match Py.iter (available_tools sv) with
  | Raise e => Raise e
  | Blocked => Blocked
  | Ok ts => map_res (fun t => Py.get t "name" JNull) ts
  end.

Definition call_tool (server_name tool_name : string) (args : json) : M json :=
  server <- servers_get server_name ;;
  match server with
  | None => raise (exception ("Server '" ++ server_name ++ "' not connected"))
  | Some server =>
      available_tool_names <- lift (tool_names server) ;;
      if negb (existsb (Py.is_str tool_name) available_tool_names) then
        raise (exception
          ("Tool '" ++ tool_name ++ "' not available on server '"
           ++ server_name ++ "'. " ++ "Available tools: "
           ++ Py.repr (JList available_tool_names)))
      else
        try_except
          (id <- _next_request_id ;;
           let tool_request :=
             request id "tools/call"
               (JDict [("name", JStr tool_name); ("arguments", args)]) in
           response <- _send_request server_name tool_request ;;
           has_result <- lift (Py.contains "result" response) ;;
           if has_result : bool then lift (Py.getitem response "result")
           else
             has_error <- lift (Py.contains "error" response) ;;
             if has_error : bool then
               error <- lift (Py.getitem response "error") ;;
               message <- lift (Py.get error "message" (JStr "Unknown error")) ;;
               raise (exception ("Tool call error: " ++ Py.str message))
             else ret response)
          (fun e =>
             raise (exception
               ("Failed to call tool '" ++ tool_name ++ "' on server '"
                ++ server_name ++ "': " ++ exn_str e)))
  end.

(** The body of the loop of [disconnect_all], inside its [try]. *)
Definition shutdown (sv : server) : M unit :=
  let process := process_ sv in
  (if stdin process then Proc.stdin_close process else ret tt) ;;
  try_except
    (Proc.wait_for process 2)
    (fun e =>
       match exn_cls e with
       | TimeoutError => Proc.terminate process ;; Proc.wait process
       | _ => raise e
       end).

Definition disconnect_one (item : string * server) : M unit :=
  let (name, sv) := item in
  try_except (shutdown sv)
    (fun e =>
       emit (Print ("Error disconnecting from server '" ++ name ++ "': "
                    ++ exn_str e))).

Definition disconnect_all : M unit :=
  items <- gets servers ;;
  for_each items disconnect_one ;;
  set_servers [].

Definition get_available_tools (server_name : string) : M json :=
  server <- servers_get server_name ;;
  match server with
  | None => raise (exception ("Server '" ++ server_name ++ "' not found"))
  | Some sv => ret (available_tools sv)
  end.

Definition is_connected (server_name : string) : M bool :=
  server <- servers_get server_name ;;
  match server with
  | None => ret false
  | Some sv =>
      ret (match returncode (process_ sv) with None => true | Some _ => false end)
  end.

End MCPClient.

(** ** The list of servers to connect (src/agent/config.py) *)

Module Config.

(** What the file system gives [load_mcp_servers]. *)
Inductive mcp_file : Type :=
| NoConfigDir (e : exn)       (* [get_config_dir()] raises *)
| Missing (path : string)     (* nothing at [path], the text of [mcp_file] *)
| Unreadable (e : exn)        (* [open] or [json.load] raises *)
| Loaded (servers : json).    (* [json.load] returns *)

(** [[x for x in items if keep x]], where the test may raise. *)
Fixpoint filter_res {A} (keep : A -> res bool) (items : list A) : res (list A) :=
  match items with
  | [] => Ok []
  | x :: rest =>
      match keep x with
      | Raise e => Raise e
      | Blocked => Blocked
      | Ok b =>
          match filter_res keep rest with
          | Raise e => Raise e
          | Blocked => Blocked
          | Ok kept => Ok (if b then x :: kept else kept)
          end
      end
  end.

(** [server.get('enabled', True)], as a test. *)
Definition enabled (server : json) : res bool :=
  match Py.get server "enabled" (JBool true) with
  | Raise e => Raise e
  | Blocked => Blocked
  | Ok v => Ok (Py.truthy v)
  end.

(** FileNotFoundError, a subclass of OSError, is carried as OSError. *)
Definition load_mcp_servers (fs : mcp_file) : res (list json) :=
  match fs with
  | NoConfigDir e => Raise e
  | Missing path =>
      Raise (Exc OSError
        ("MCP servers file not found at " ++ path ++ ". "
         ++ "Run 'claudius init' to create configuration."))
  | Unreadable e => Raise e
  | Loaded servers =>
      match servers with
      | JDict fields =>
          if Dict.mem "servers" fields then
            match Py.getitem servers "servers" with
            | Raise e => Raise e
            | Blocked => Blocked
            | Ok entries =>
                match Py.iter entries with
                | Raise e => Raise e
                | Blocked => Blocked
                | Ok items => filter_res enabled items
                end
            end
          else Ok []
      | JList items => Ok items
      | _ => Ok []
      end
  end.

End Config.

(** ** Gathering context from the servers (src/agent/research.py) *)

Module ResearchAgent.

(** An entry of the list of servers as [gather_context] reads it: its
    [name], its [command] and its [config], the empty dictionary when the
    entry has none.  The embedding covers the entries whose name and
    command are strings and whose config is a dictionary. *)
Record server_config : Type := ServerConfig {
  cfg_name : string;
  cfg_command : string;
  cfg_config : Dict.t json
}.

(** The first loop: the servers are connected in order, the process of
    the server at position [i] being what [os i] says. *)
Fixpoint connect_all (i : nat) (servers : list server_config)
    (os : nat -> res peer) : M unit :=
  match servers with
  | [] => ret tt
  | server_config :: rest =>
      MCPClient.connect_server (cfg_name server_config)
        (cfg_command server_config) (cfg_config server_config) (os i) ;;
      connect_all (S i) rest os
  end.

Definition _get_calendar_context (server_name : string) : M json :=
  try_except
    (MCPClient.call_tool server_name "get_events"
       (JDict [("days_ahead", JInt 2)]))
    (fun e =>
       emit (Print ("Calendar context error: " ++ exn_str e)) ;;
       ret (JDict [])).

Definition _get_email_context (server_name : string) : M json :=
  try_except
    (MCPClient.call_tool server_name "get_recent_emails"
       (JDict [("hours", JInt 24); ("unread_only", JBool true)]))
    (fun e =>
       emit (Print ("Email context error: " ++ exn_str e)) ;;
       ret (JDict [])).

Definition _get_github_context (server_name : string) : M json :=
  try_except
    (MCPClient.call_tool server_name "get_activity"
       (JDict [("include_notifications", JBool true)]))
    (fun e =>
       emit (Print ("GitHub context error: " ++ exn_str e)) ;;
       ret (JDict [])).

Definition _get_slack_context (server_name : string) : M json :=
  try_except
    (MCPClient.call_tool server_name "get_recent_messages"
       (JDict [("hours", JInt 24)]))
    (fun e =>
       emit (Print ("Slack context error: " ++ exn_str e)) ;;
       ret (JDict [])).

(** The body of the second loop: the server is asked by the kind its name
    shows, and the answer is stored in [context]. *)
Definition gather_step (server_config : server_config)
    (context : Dict.t json) : M (Dict.t json) :=
  let name := cfg_name server_config in
  if PyStr.contains "calendar" (PyStr.lower name)
     || PyStr.contains "gcal" (PyStr.lower name) then
    v <- _get_calendar_context name ;; ret (Dict.set "calendar" v context)
  else if PyStr.contains "gmail" (PyStr.lower name)
          || PyStr.contains "email" (PyStr.lower name) then
    v <- _get_email_context name ;; ret (Dict.set "email" v context)
  else if PyStr.contains "github" (PyStr.lower name) then
    v <- _get_github_context name ;; ret (Dict.set "github" v context)
  else if PyStr.contains "slack" (PyStr.lower name) then
    v <- _get_slack_context name ;; ret (Dict.set "slack" v context)
  else ret context.

(** The second loop.  [context] is a local variable: an exception, or
    an await that blocks, leaves the loop with what [context] holds by
    then. *)
Fixpoint collect (servers : list server_config) (context : Dict.t json)
    (s : state) : (Dict.t json * res unit) * state :=
  match servers with
  | [] => ((context, Ok tt), s)
  | server_config :: rest =>
      match gather_step server_config context s with
      | (Ok context', s') => collect rest context' s'
      | (Raise e, s') => ((context, Raise e), s')
      | (Blocked, s') => ((context, Blocked), s')
      end
  end.

Definition warning (e : exn) : event :=
  Print ("Warning: Error gathering context: " ++ exn_str e).

(** [loaded] is what [load_mcp_servers()] gives. *)
Definition gather_context (loaded : res (list server_config))
    (os : nat -> res peer) : M (Dict.t json) :=
  fun s =>
    match (servers <- lift loaded ;;
           connect_all 0 servers os ;;
           ret servers) s with
    | (Raise e, s1) => (emit (warning e) ;; ret []) s1
    | (Blocked, s1) => (Blocked, s1)
    | (Ok servers, s1) =>
        match collect servers [] s1 with
        | ((context, Ok _), s2) => (Ok context, s2)
        | ((context, Raise e), s2) => (emit (warning e) ;; ret context) s2
        | ((context, Blocked), s2) => (Blocked, s2)
        end
    end.

End ResearchAgent.

(** * Notions the properties are stated with *)

(** The characters [repr] leaves as they are. *)
Definition verbatim (s : string) : bool :=
  forallb (fun c => negb (PyStr.escaped (PyStr.repr_quote s) c)) (PyStr.chars s).

(** Two entries hold the same process handle and launch data. *)
Definition same_handle (a b : server) : Prop :=
  pid (process_ a) = pid (process_ b) /\
  stdin (process_ a) = stdin (process_ b) /\
  returncode (process_ a) = returncode (process_ b) /\
  command a = command b /\ args a = args b.

(** From [s] to [s'] the registry changed at most at [name], whose entry
    [sv] became [sv'], no process was started, and [evs] was done. *)
Record touched (name : string) (sv sv' : server) (evs : list event)
    (s s' : state) : Prop := Touched {
  t_servers : servers s' = Dict.set name sv' (servers s);
  t_handle : same_handle sv sv';
  t_spawned : spawned s' = spawned s;
  t_log : log s' = (log s ++ evs)%list
}.

(** The part of the handshake after the answer to [tools/list]: it
    changes nothing but the tool list of the entry. *)
Definition store_tools (name : string) (tools_response : json) : M unit :=
  (has_result <- lift (Py.contains "result" tools_response) ;;
   if has_result : bool then
     result <- lift (Py.getitem tools_response "result") ;;
     has_tools <- lift (Py.contains "tools" result) ;;
     if has_tools : bool then
       result <- lift (Py.getitem tools_response "result") ;;
       tools <- lift (Py.getitem result "tools") ;;
       MCPClient.set_available_tools name tools
     else ret tt
   else ret tt)%py.

(** The requests of the handshake, for a counter at [n]. *)
Definition init_request (n : Z) : json :=
  MCPClient.request (n + 1) "initialize" MCPClient.init_params.
Definition tools_request (n : Z) : json :=
  MCPClient.request (n + 2) "tools/list" (JDict []).
Definition call_request (n : Z) (tool_name : string) (args : json) : json :=
  MCPClient.request (n + 1) "tools/call"
    (JDict [("name", JStr tool_name); ("arguments", args)]).

(** What [call_tool] makes of the answer to [tools/call]; it touches
    nothing of the state. *)
Definition tool_result (response : json) : M json :=
  (has_result <- lift (Py.contains "result" response) ;;
   if has_result : bool then lift (Py.getitem response "result")
   else
     has_error <- lift (Py.contains "error" response) ;;
     if has_error : bool then
       error <- lift (Py.getitem response "error") ;;
       message <- lift (Py.get error "message" (JStr "Unknown error")) ;;
       raise (exception ("Tool call error: " ++ Py.str message))
     else ret response)%py.

(** The text of the error for a tool the server does not list. *)
Definition unavailable (server_name tool_name : string) (names : list json) : string :=
  "Tool '" ++ tool_name ++ "' not available on server '" ++ server_name
  ++ "'. Available tools: " ++ Py.repr (JList names).

(** The entry [connect_server] stores before the handshake. *)
Definition fresh_entry (command : string) (config : Dict.t json) (b : peer)
    (s : state) : server :=
  Server (Process (spawned s) true None b) command
         (Dict.get_or "args" config (JList [])) (JList []).

Definition spawn_event (command : string) (config : Dict.t json) (s : state) : event :=
  Spawn (spawned s) command (Dict.get_or "args" config (JList []))
        (Dict.get_or "env" config (JDict [])).

(** The calls a user makes on one client, each with what the environment
    answers to it. *)
Inductive call : Type :=
| ConnectServer (name command : string) (config : Dict.t json) (os : res peer)
| CallTool (server_name tool_name : string) (args : json)
| DisconnectAll
| GetAvailableTools (server_name : string)
| IsConnected (server_name : string).

(** The state one call leaves.  A call that does not return leaves the
    state it had brought the client to when it came to a halt; that is the
    state a caller finds who gives the call up. *)
Definition exec (c : call) (s : state) : state :=
  match c with
  | ConnectServer name command config os =>
      snd (MCPClient.connect_server name command config os s)
  | CallTool server_name tool_name args =>
      snd (MCPClient.call_tool server_name tool_name args s)
  | DisconnectAll => snd (MCPClient.disconnect_all s)
  | GetAvailableTools server_name =>
      snd (MCPClient.get_available_tools server_name s)
  | IsConnected server_name => snd (MCPClient.is_connected server_name s)
  end.

(** The state of a client after the calls [cs], made in order on [s]. *)
Definition run (cs : list call) (s : state) : state :=
  fold_left (fun s c => exec c s) cs s.

(** The id a request carries. *)
Definition id_of (request : json) : list Z :=
  match Py.getitem request "id" with
  | Ok (JInt i) => [i]
  | _ => []
  end.

(** The ids of the requests written, in order: to any process, and to the
    process [p]. *)
Definition request_ids (l : list event) : list Z :=
  flat_map (fun e => match e with Write _ r => id_of r | _ => [] end) l.


Definition ids_upto (n : Z) : list Z := map Z.of_nat (seq 1 (Z.to_nat n)).

Fixpoint count_writes (l : list event) : nat :=
  match l with
  | [] => 0%nat
  | Write _ _ :: l' => S (count_writes l')
  | _ :: l' => count_writes l'
  end.

(** The requests written in [l] carry the ids [n + 1], [n + 2], ... in
    order. *)
Fixpoint numbered (n : Z) (l : list event) : Prop :=
  match l with
  | [] => True
  | Write _ r :: l' => id_of r = [n + 1] /\ numbered (n + 1) l'
  | _ :: l' => numbered n l'
  end.

(** The ids of the requests written so far are 1, 2, ... in order, up to
    the counter. *)
Definition ids_in_order (s : state) : Prop :=
  numbered 0 (log s) /\ request_id s = Z.of_nat (count_writes (log s)).

(** Every process in the registry has a pipe for its standard input. *)
Definition pipes_open (s : state) : Prop :=
  forall k v, In (k, v) (servers s) -> stdin (process_ v) = true.

(** The line the teardown prints for an entry that raised. *)
Definition report (name msg : string) : event :=
  Print ("Error disconnecting from server '" ++ name ++ "': " ++ msg).

(** What the teardown of one entry does to the environment. *)
Definition shutdown_events (item : string * server) : list event :=
  log (snd (MCPClient.disconnect_one item MCPClient.__init__)).

(** A process that the teardown cannot end: closing its input goes well,
    it does not exit within the window, the termination signal is sent,
    and it does not exit after that either. *)
Definition stubborn (p : process) : bool :=
  let b := behaviour p in
  match (if stdin p then close_fault b else None),
        graceful b, terminate_fault b, final_wait b with
  | None, TimesOut, None, TimesOut => true
  | _, _, _, _ => false
  end.

Definition stalls (item : string * server) : bool :=
  stubborn (process_ (snd item)).

(** What the teardown pass does to the environment: the steps of the
    entries in order, up to and with the first that stalls. *)
Fixpoint teardown_events (items : list (string * server)) : list event :=
  match items with
  | [] => []
  | item :: rest =>
      (shutdown_events item
       ++ (if stalls item then [] else teardown_events rest))%list
  end.

(** Modelled from the spec: the status of a Connection (section 3), which
    the source does not keep; after a connect attempt it is Ready on a
    successful handshake and Failed on any error (section 4.3); while the
    attempt has not come to an end it is not yet Ready. *)
Inductive status : Type :=
| Disconnected | Connecting | Initializing | Ready | Disconnecting | Failed.

Definition status_after_connect (r : res unit) : status :=
  match r with
  | Ok _ => Ready
  | Raise _ => Failed
  | Blocked => Initializing
  end.

(** ** Sample peers and states *)

Definition reply (id : Z) (result : json) : read :=
  Text (JDict [("jsonrpc", JStr "2.0"); ("id", JInt id); ("result", result)]).

Definition error_reply (id code : Z) (message : string) : read :=
  Text (JDict [("jsonrpc", JStr "2.0"); ("id", JInt id);
               ("error", JDict [("code", JInt code); ("message", JStr message)])]).

Definition calendar_tools : json :=
  JList [JDict [("name", JStr "get_events")];
         JDict [("name", JStr "get_contacts")]].

(** A peer that completes the handshake with two tools, answers a first
    call with a result and a second with an error, and does not exit when
    its input is closed. *)
Definition calendar : peer :=
  Peer [] [reply 1 (JDict []);
           reply 2 (JDict [("tools", calendar_tools)]);
           reply 3 (JDict [("contacts", JList [])]);
           error_reply 4 (-32601) "no such tool"]
       None TimesOut None (Exits (-15)).

(** A peer that answers [initialize] with a line that is not JSON, and
    keeps running. *)
Definition garbled : peer :=
  Peer [] [Line (NotJson "Expecting value: line 1 column 1 (char 0)")]
       None (Exits 0) None (Exits 0).

(** A peer that answers [tools/list] with a null result. *)
Definition null_result : peer :=
  Peer [] [reply 1 (JDict []); reply 2 JNull] None (Exits 0) None (Exits 0).



(** A peer whose only tool has a backslash in its name. *)
Definition backslash_tools : peer :=
  Peer [] [reply 1 (JDict []);
           reply 2 (JDict [("tools", JList [JDict [("name", JStr "a\b")]])])]
       None (Exits 0) None (Exits 0).

Definition connected (name : string) (b : peer) (s : state) : state :=
  exec (ConnectServer name "npx" [] (Ok b)) s.

(** A client with the calendar peer connected as "cal", one with a second
    calendar peer as "mail" besides, one after a failed connect, and one
    whose server "s" lists the tool with a backslash. *)
Definition cal_state : state := connected "cal" calendar MCPClient.__init__.
Definition two_connects : list call :=
  [ConnectServer "cal" "npx" [] (Ok calendar);
   ConnectServer "mail" "npx" [] (Ok calendar)].
Definition two_servers : state := run two_connects MCPClient.__init__.
Definition failed_state : state := connected "cal" garbled MCPClient.__init__.
Definition backslash_state : state :=
  connected "s" backslash_tools MCPClient.__init__.

(** ** The statements of the specification that the source does not meet *)

(** A connect attempt that fails in the handshake leaves the registry as it
    was. *)
Definition failed_handshake_leaves_registry : Prop :=
  forall name command config b s e s',
    MCPClient.connect_server name command config (Ok b) s = (Raise e, s') ->
    servers s' = servers s.



(** A call for a tool the server does not list fails with a message in
    which every listed tool name occurs. *)
Definition unavailable_message_has_names : Prop :=
  forall sn tn a s sv names,
    Dict.get sn (servers s) = Some sv ->
    MCPClient.tool_names sv = Ok names ->
    existsb (Py.is_str tn) names = false ->
    exists msg,
      fst (MCPClient.call_tool sn tn a s) = Raise (exception msg) /\
      forall n, In (JStr n) names -> PyStr.contains n msg = true.

(** After a connect attempt, [is_connected] holds of the name only if the
    status of the Connection is Ready. *)
Definition connected_means_ready : Prop :=
  forall name cmd config os s r s',
    MCPClient.connect_server name cmd config os s = (r, s') ->
    fst (MCPClient.is_connected name s') = Ok true ->
    status_after_connect r = Ready.

(** ** The state with another log *)

Definition with_log (s : state) (l : list event) : state :=
  State (servers s) (request_id s) (spawned s) l.

(** ** One request to a process *)

(** What one request gets from a process that behaves as [b]: the error
    of the write, or else what the next read of its output comes to. *)
Definition answer (b : peer) : res json :=
  match writes b with
  | Some msg :: _ =>
      Raise (exception ("Communication error with server: " ++ msg))
  | _ =>
      match stdout b with
      | [] =>
          Raise (exception
            "Communication error with server: Server closed connection")
      | Line (Text v) :: _ => Ok v
      | Line (NotUtf8 msg) :: _ =>
          Raise (exception ("Communication error with server: " ++ msg))
      | Line (NotJson msg) :: _ =>
          Raise (exception ("Invalid JSON response from server: " ++ msg))
      | OverLimit msg :: _ =>
          Raise (exception ("Communication error with server: " ++ msg))
      | Silent :: _ => Blocked
      end
  end.

(** The process after that request: the write is done and, unless it
    raised, one read of the output is done, if it comes to an end. *)
Definition after_request (b : peer) : peer :=
  Peer (tl (writes b))
       (match writes b, stdout b with
        | Some _ :: _, _ => stdout b
        | _, Silent :: _ => stdout b
        | _, _ => tl (stdout b)
        end)
       (close_fault b) (graceful b) (terminate_fault b) (final_wait b).

(** The errors of the handshake and of a connect attempt, for the error
    [e] they enclose. *)
Definition init_error (name : string) (e : exn) : exn :=
  exception ("Failed to initialize server '" ++ name ++ "': " ++ exn_str e).

Definition connect_error (name : string) (e : exn) : exn :=
  exception ("Failed to connect to MCP server '" ++ name ++ "': " ++ exn_str e).

(** The state in which the handshake of a connect attempt starts: the
    process is started and its entry stored. *)
Definition started (name cmd : string) (config : Dict.t json) (b : peer)
    (s : state) : state :=
  State (Dict.set name (fresh_entry cmd config b s) (servers s))
        (request_id s) (S (spawned s))
        (log s ++ [spawn_event cmd config s]).

(** A peer whose tool list holds names instead of objects, and the
    calendar client once its peer has nothing more to say. *)
Definition plain_names : peer :=
  Peer [] [reply 1 (JDict []);
           reply 2 (JDict [("tools", JList [JStr "get_events"])])]
       None (Exits 0) None (Exits 0).

Definition drained : state :=
  run [CallTool "cal" "get_contacts" (JDict []);
       CallTool "cal" "get_contacts" (JDict [])] cal_state.

(** The tool list the handshake keeps for an answer to [tools/list] that
    is an object whose result is an object, or that has no result. *)
Definition listed_tools (fields : Dict.t json) : json :=
  match Dict.get "result" fields with
  | Some (JDict result) => Dict.get_or "tools" result (JList [])
  | _ => JList []
  end.

(** The process an event concerns. *)
Definition event_pid (e : event) : option nat :=
  match e with
  | Spawn p _ _ _ | Write p _ | CloseStdin p | WaitFor p _
  | Terminate p | Wait p => Some p
  | Print _ => None
  end.

(** The processes whose standard input is closed in [l], in order. *)
Definition closed (l : list event) : list nat :=
  flat_map (fun e => match e with CloseStdin p => [p] | _ => [] end) l.

(** The processes of the registry, in its order. *)
Definition pids (d : Dict.t server) : list nat :=
  map (fun kv => pid (process_ (snd kv))) d.

Definition registered (s : state) : list nat := pids (servers s).

(** No two entries of the registry hold the same process, and every
    process of the registry was started by this client. *)
Definition processes_distinct (s : state) : Prop :=
  NoDup (registered s) /\ Forall (fun p => (p < spawned s)%nat) (registered s).

(** The events concern processes of the registry of [s] or processes
    started after it. *)
Definition about_registered (s : state) (evs : list event) : Prop :=
  Forall (fun e => forall p, event_pid e = Some p ->
                     In p (registered s) \/ (spawned s <= p)%nat) evs.

(** ** Reading the list of servers *)

(** The entry [gather_context] reads from a value of the list:
    [server_config.get("name")], [.get("command")] and
    [.get("config", {})]. *)
Definition read_config (server_config : json) : option ResearchAgent.server_config :=
  match server_config with
  | JDict fields =>
      match Dict.get "name" fields, Dict.get "command" fields,
            Dict.get_or "config" fields (JDict []) with
      | Some (JStr name), Some (JStr command), JDict config =>
          Some (ResearchAgent.ServerConfig name command config)
      | _, _, _ => None
      end
  | _ => None
  end.



(** Whether [load_mcp_servers] keeps an entry found under "servers": its
    "enabled" is true in the sense of [if], or it has none. *)
Definition kept (server : json) : bool :=
  match server with
  | JDict fields => Py.truthy (Dict.get_or "enabled" fields (JBool true))
  | _ => false
  end.

Definition is_object (v : json) : bool :=
  match v with JDict _ => true | _ => false end.

(** Three entries of a file of servers, of which the first is switched
    off and the last has a null for "enabled", and servers as
    [gather_context] reads them. *)
Definition three_entries : list json :=
  [JDict [("name", JStr "Google-Calendar"); ("command", JStr "npx");
          ("enabled", JBool false)];
   JDict [("name", JStr "mail"); ("command", JStr "npx");
          ("args", JList [JStr "-y"; JStr "mail-server"])];
   JDict [("name", JStr "notes"); ("command", JStr "npx");
          ("enabled", JNull)]].

Definition calendar_config : ResearchAgent.server_config :=
  ResearchAgent.ServerConfig "Google-Calendar" "npx" [].
Definition mail_config : ResearchAgent.server_config :=
  ResearchAgent.ServerConfig "mail" "npx" [].
Definition github_config : ResearchAgent.server_config :=
  ResearchAgent.ServerConfig "github" "npx" [].

(** The first process started completes the handshake, the later ones
    answer [initialize] with a line that is not JSON. *)
Definition second_fails (i : nat) : res peer :=
  match i with
  | O => Ok calendar
  | _ => Ok garbled
  end.

(** * Properties *)

(** ** Facts on dictionaries *)

Module DictFacts.
Section DictFacts.
Context {V : Type}.
Implicit Types (d : Dict.t V) (k : string) (v : V).

Lemma get_set_same k v d : Dict.get k (Dict.set k v d) = Some v.
Proof.
  induction d as [|[k' v'] d IH]; simpl.
  - now rewrite String.eqb_refl.
  - destruct (String.eqb k k') eqn:E; simpl.
    + now rewrite String.eqb_refl.
    + now rewrite E.
Qed.

Lemma get_set_other k k' v d :
  k' <> k -> Dict.get k' (Dict.set k v d) = Dict.get k' d.
Proof.
  intros Hne. induction d as [|[k0 v0] d IH]; simpl.
  - apply String.eqb_neq in Hne. now rewrite Hne.
  - destruct (String.eqb k k0) eqn:E; simpl.
    + apply String.eqb_eq in E. subst k0.
      apply String.eqb_neq in Hne. now rewrite Hne.
    + now rewrite IH.
Qed.

(** Storing again what is stored changes nothing. *)
Lemma set_get k v d : Dict.get k d = Some v -> Dict.set k v d = d.
Proof.
  induction d as [|[k' v'] d IH]; simpl; [discriminate|].
  destruct (String.eqb k k') eqn:E.
  - apply String.eqb_eq in E. intros [= ->]. now subst.
  - intros H. now rewrite IH.
Qed.

Lemma set_set k v v' d : Dict.set k v' (Dict.set k v d) = Dict.set k v' d.
Proof.
  induction d as [|[k0 v0] d IH]; simpl.
  - now rewrite String.eqb_refl.
  - destruct (String.eqb k k0) eqn:E; simpl.
    + now rewrite String.eqb_refl.
    + now rewrite E, IH.
Qed.

Lemma get_in k v d : Dict.get k d = Some v -> In (k, v) d.
Proof.
  induction d as [|[k' v'] d IH]; simpl; [discriminate|].
  destruct (String.eqb k k') eqn:E.
  - apply String.eqb_eq in E. intros [= ->]. left. now subst.
  - intros H. right. auto.
Qed.
End DictFacts.
End DictFacts.

(** ** Facts on strings *)

Module PyStrFacts.
Import PyStr.

Lemma prefix_app (s t : string) : String.prefix s (s ++ t) = true.
Proof.
  induction s as [|c s IH]; simpl; [now destruct t|].
  destruct (ascii_dec c c); [exact IH|congruence].
Qed.

Lemma contains_prefix (sub s : string) :
  String.prefix sub s = true -> contains sub s = true.
Proof. intros H. destruct s; cbn [contains]; rewrite H; reflexivity. Qed.

(** A string occurs in whatever is written around it. *)
Lemma contains_app (a s b : string) : contains s (a ++ s ++ b) = true.
Proof.
  induction a as [|c a IH].
  - change ("" ++ s ++ b) with (s ++ b).
    apply contains_prefix, prefix_app.
  - cbn [append contains]. rewrite IH. apply orb_true_r.
Qed.

Lemma contains_inv (sub s : string) :
  contains sub s = true -> exists a b, s = a ++ sub ++ b.
Proof.
  induction s as [|c s IH]; cbn [contains].
  - rewrite orb_false_r. destruct sub; [|discriminate].
    intros _. now exists "", "".
  - intros H. apply orb_true_iff in H. destruct H as [H|H].
    + exists "". simpl.
      assert (P : forall p q, String.prefix p q = true -> exists b, q = p ++ b).
      { clear. induction p as [|x p IHp]; intros q Hq.
        - now exists q.
        - destruct q as [|y q]; simpl in Hq; [discriminate|].
          destruct (ascii_dec x y); [|discriminate]. subst y.
          destruct (IHp _ Hq) as [b ->]. now exists b. }
      exact (P _ _ H).
    + destruct (IH H) as (a & b & ->). now exists (String c a), b.
Qed.

Lemma app_assoc (a b c : string) : (a ++ b) ++ c = a ++ b ++ c.
Proof. induction a; simpl; congruence. Qed.

(** Occurring in a part is occurring in the whole. *)
Lemma contains_mid (sub a s b : string) :
  contains sub s = true -> contains sub (a ++ s ++ b) = true.
Proof.
  intros H. destruct (contains_inv _ _ H) as (x & y & ->).
  replace (a ++ (x ++ sub ++ y) ++ b) with ((a ++ x) ++ sub ++ (y ++ b)).
  - apply contains_app.
  - now rewrite !app_assoc.
Qed.

Lemma repr_char_plain (q c : ascii) :
  escaped q c = false -> repr_char q c = String c "".
Proof.
  unfold escaped, repr_char. intros H.
  apply orb_false_iff in H. destruct H as [H1 H2].
  rewrite H1. apply negb_false_iff in H2.
  destruct (Ascii.eqb c tab) eqn:Et.
  { apply Ascii.eqb_eq in Et. subst c. discriminate. }
  destruct (Ascii.eqb c newline) eqn:En.
  { apply Ascii.eqb_eq in En. subst c. discriminate. }
  destruct (Ascii.eqb c creturn) eqn:Er.
  { apply Ascii.eqb_eq in Er. subst c. discriminate. }
  now rewrite H2.
Qed.

Lemma repr_body_plain (q : ascii) (s : string) :
  forallb (fun c => negb (escaped q c)) (chars s) = true ->
  repr_body q s = s.
Proof.
  induction s as [|c s IH]; simpl; [reflexivity|].
  intros H. apply andb_true_iff in H. destruct H as [Hc Hs].
  apply negb_true_iff in Hc.
  rewrite (repr_char_plain _ _ Hc), (IH Hs). reflexivity.
Qed.

Lemma repr_verbatim (s : string) :
  verbatim s = true ->
  repr s = String (repr_quote s) (s ++ String (repr_quote s) "").
Proof. intros H. unfold repr. now rewrite (repr_body_plain _ _ H). Qed.

Lemma contains_repr_verbatim (s : string) :
  verbatim s = true -> contains s (repr s) = true.
Proof.
  intros H. rewrite (repr_verbatim _ H).
  exact (contains_app (String (repr_quote s) "") s _).
Qed.

(** Every part occurs in the joined string. *)
Lemma join_part (sep x : string) (parts : list string) :
  In x parts -> exists a b, join sep parts = a ++ x ++ b.
Proof.
  unfold join. induction parts as [|y ys IH]; [intros []|].
  intros [->|Hin].
  - destruct ys as [|z zs].
    + exists "", "". cbn. clear. induction x; cbn; congruence.
    + exists "", (sep ++ String.concat sep (z :: zs)). reflexivity.
  - destruct ys as [|z zs]; [destruct Hin|].
    destruct (IH Hin) as (a & b & E).
    exists (y ++ sep ++ a), b.
    change (String.concat sep (y :: z :: zs))
      with (y ++ sep ++ String.concat sep (z :: zs)).
    rewrite E, !app_assoc. reflexivity.
Qed.

End PyStrFacts.

Module PyFacts.

Lemma repr_list (items : list json) :
  Py.repr (JList items) =
    "[" ++ PyStr.join ", " (map Py.repr items) ++ "]".
Proof. reflexivity. Qed.

End PyFacts.

(** ** What one request does to the state *)

Lemma same_handle_refl (a : server) : same_handle a a.
Proof. repeat split. Qed.

Lemma same_handle_trans (a b c : server) :
  same_handle a b -> same_handle b c -> same_handle a c.
Proof.
  unfold same_handle. intros (?&?&?&?&?) (?&?&?&?&?).
  repeat split; congruence.
Qed.

Lemma touched_trans name sv sv1 sv2 e1 e2 s s1 s2 :
  touched name sv sv1 e1 s s1 -> touched name sv1 sv2 e2 s1 s2 ->
  touched name sv sv2 (e1 ++ e2)%list s s2.
Proof.
  intros [A1 B1 C1 D1] [A2 B2 C2 D2]. split.
  - now rewrite A2, A1, DictFacts.set_set.
  - eapply same_handle_trans; eauto.
  - congruence.
  - now rewrite D2, D1, <- List.app_assoc.
Qed.

Lemma touched_get name sv sv' evs s s' :
  touched name sv sv' evs s s' -> Dict.get name (servers s') = Some sv'.
Proof. intros [A _ _ _]. rewrite A. apply DictFacts.get_set_same. Qed.

Lemma touched_other name sv sv' evs s s' k :
  touched name sv sv' evs s s' -> k <> name ->
  Dict.get k (servers s') = Dict.get k (servers s).
Proof. intros [A _ _ _] Hk. rewrite A. now apply DictFacts.get_set_other. Qed.

(** Inversion of the sequencing and of the handlers. *)

Lemma bind_inv {A B} (m : M A) (k : A -> M B) s r s' :
  bind m k s = (r, s') ->
  (exists a s1, m s = (Ok a, s1) /\ k a s1 = (r, s')) \/
  (exists e, m s = (Raise e, s') /\ r = Raise e) \/
  (m s = (Blocked, s') /\ r = Blocked).
Proof.
  unfold bind. destruct (m s) as [[a|e|] s1]; intros H.
  - left. now exists a, s1.
  - right. left. exists e. now inversion H.
  - right. right. now inversion H.
Qed.

Lemma try_except_inv {A} (body : M A) (handler : exn -> M A) s r s' :
  try_except body handler s = (r, s') ->
  (exists a, body s = (Ok a, s') /\ r = Ok a) \/
  (exists e s1, body s = (Raise e, s1) /\ handler e s1 = (r, s')) \/
  (body s = (Blocked, s') /\ r = Blocked).
Proof.
  unfold try_except. destruct (body s) as [[a|e|] s1]; intros H.
  - left. exists a. now inversion H.
  - right. left. now exists e, s1.
  - right. right. now inversion H.
Qed.

Lemma touched_refl name sv s :
  Dict.get name (servers s) = Some sv -> touched name sv sv [] s s.
Proof.
  intros H. split.
  - now rewrite DictFacts.set_get.
  - apply same_handle_refl.
  - reflexivity.
  - now rewrite List.app_nil_r.
Qed.

Module ProcFacts.
Import Proc.

Lemma update_effect name f s sv :
  Dict.get name (servers s) = Some sv ->
  exists s1,
    update name f s = (Ok tt, s1) /\
    servers s1 =
      Dict.set name (Server (f (process_ sv)) (command sv) (args sv)
                            (available_tools sv)) (servers s) /\
    request_id s1 = request_id s /\ spawned s1 = spawned s /\ log s1 = log s.
Proof.
  intros H. unfold update, bind, gets, set_servers. rewrite H.
  eexists. split; [reflexivity|]. cbn. auto.
Qed.

Lemma current_effect name p s sv :
  Dict.get name (servers s) = Some sv ->
  current name p s = (Ok (process_ sv), s).
Proof. intros H. unfold current, bind, gets, ret. now rewrite H. Qed.

Lemma emit_effect e s :
  exists s1, emit e s = (Ok tt, s1) /\ servers s1 = servers s /\
    request_id s1 = request_id s /\ spawned s1 = spawned s /\
    log s1 = (log s ++ [e])%list.
Proof. eexists. split; [reflexivity|]. cbn. auto. Qed.

Lemma stdin_write_effect name p req s sv r s' :
  Dict.get name (servers s) = Some sv ->
  stdin_write name p req s = (r, s') ->
  exists sv',
    touched name sv sv' [Write (pid p) req] s s' /\
    available_tools sv' = available_tools sv /\
    request_id s' = request_id s.
Proof.
  intros Hget. unfold stdin_write.
  destruct (emit_effect (Write (pid p) req) s) as (s1 & E1 & S1 & R1 & P1 & L1).
  unfold bind at 1. rewrite E1.
  assert (Hget1 : Dict.get name (servers s1) = Some sv) by now rewrite S1.
  unfold bind at 1. rewrite (current_effect _ _ _ _ Hget1).
  destruct (writes (behaviour (process_ sv))) as [|w ws].
  - intros [= <- <-]. exists sv. repeat split; auto.
    + now rewrite S1, DictFacts.set_get.
  - destruct (update_effect name (set_writes ws) s1 sv Hget1)
      as (s2 & E2 & S2 & R2 & P2 & L2).
    unfold bind. rewrite E2.
    intros H.
    assert (s' = s2) by (destruct w; inversion H; reflexivity). subst s'.
    exists (Server (set_writes ws (process_ sv)) (command sv) (args sv)
                   (available_tools sv)).
    split; [split|split].
    + now rewrite S2, S1.
    + repeat split.
    + congruence.
    + congruence.
    + reflexivity.
    + congruence.
Qed.

Lemma stdout_readline_effect name p s sv r s' :
  Dict.get name (servers s) = Some sv ->
  stdout_readline name p s = (r, s') ->
  exists sv',
    touched name sv sv' [] s s' /\
    available_tools sv' = available_tools sv /\
    request_id s' = request_id s.
Proof.
  intros Hget. unfold stdout_readline.
  unfold bind at 1. rewrite (current_effect _ _ _ _ Hget).
  assert (Same : forall r0, (r0, s) = (r, s') ->
    exists sv', touched name sv sv' [] s s' /\
      available_tools sv' = available_tools sv /\
      request_id s' = request_id s).
  { intros r0 [= _ <-]. exists sv. split; [now apply touched_refl|].
    now split. }
  assert (Popped : forall ls r0,
    (update name (set_stdout ls) ;; (fun s0 => (r0, s0)))%py s = (r, s') ->
    exists sv', touched name sv sv' [] s s' /\
      available_tools sv' = available_tools sv /\
      request_id s' = request_id s).
  { intros ls r0.
    destruct (update_effect name (set_stdout ls) s sv Hget)
      as (s2 & E2 & S2 & R2 & P2 & L2).
    unfold bind. rewrite E2. intros [= _ <-].
    exists (Server (set_stdout ls (process_ sv)) (command sv) (args sv)
                   (available_tools sv)).
    split; [split|split].
    + exact S2.
    + repeat split.
    + exact P2.
    + now rewrite List.app_nil_r.
    + reflexivity.
    + exact R2. }
  destruct (stdout (behaviour (process_ sv))) as [|[l|msg|] ls].
  - apply Same.
  - apply (Popped ls (Ok (Some l))).
  - apply (Popped ls (Raise (Exc ValueError msg))).
  - apply Same.
Qed.

Lemma json_loads_decode_state l s r s' :
  json_loads_decode l s = (r, s') -> s' = s.
Proof. destruct l; intros [= _ <-]; reflexivity. Qed.

End ProcFacts.

Module SendFacts.
Import MCPClient.

Lemma send_request_effect name req s sv r s' :
  Dict.get name (servers s) = Some sv ->
  _send_request name req s = (r, s') ->
  exists sv',
    touched name sv sv' [Write (pid (process_ sv)) req] s s' /\
    available_tools sv' = available_tools sv /\
    request_id s' = request_id s.
Proof.
  intros Hget. unfold _send_request, servers_get.
  unfold bind at 1, gets. rewrite Hget.
  intros H. apply try_except_inv in H.
  assert (Body : forall r1 s1,
    (Proc.stdin_write name (process_ sv) req ;;
     response_line <- Proc.stdout_readline name (process_ sv) ;;
     match response_line with
     | None => raise (exception "Server closed connection")
     | Some l => Proc.json_loads_decode l
     end)%py s = (r1, s1) ->
    exists sv',
      touched name sv sv' [Write (pid (process_ sv)) req] s s1 /\
      available_tools sv' = available_tools sv /\
      request_id s1 = request_id s).
  { intros r1 s1 B. apply bind_inv in B.
    destruct B as [(u & s2 & W & B)|[(e & W & _)|(W & _)]].
    - destruct (ProcFacts.stdin_write_effect _ _ _ _ _ _ _ Hget W)
        as (sv1 & T1 & A1 & R1).
      assert (Read : forall rd s3,
        Proc.stdout_readline name (process_ sv) s2 = (rd, s3) ->
        exists sv',
          touched name sv sv' [Write (pid (process_ sv)) req] s s3 /\
          available_tools sv' = available_tools sv /\
          request_id s3 = request_id s).
      { intros rd s3 Rd.
        destruct (ProcFacts.stdout_readline_effect _ _ _ _ _ _
                    (touched_get _ _ _ _ _ _ T1) Rd)
          as (sv2 & T2 & A2 & R2).
        exists sv2. split; [|split].
        * apply (touched_trans _ _ _ _ _ _ _ _ _ T1 T2).
        * congruence.
        * congruence. }
      apply bind_inv in B.
      destruct B as [(ol & s3 & Rd & B)|[(e & Rd & _)|(Rd & _)]].
      + assert (s1 = s3).
        { destruct ol as [l|].
          - now apply ProcFacts.json_loads_decode_state in B.
          - now inversion B. }
        subst s3. exact (Read _ _ Rd).
      + exact (Read _ _ Rd).
      + exact (Read _ _ Rd).
    - exact (ProcFacts.stdin_write_effect _ _ _ _ _ _ _ Hget W).
    - exact (ProcFacts.stdin_write_effect _ _ _ _ _ _ _ Hget W). }
  destruct H as [(a & B & _)|[(e & s1 & B & Hh)|(B & _)]].
  - exact (Body _ _ B).
  - assert (s' = s1) by (destruct (exn_cls e); now inversion Hh).
    subst s1. exact (Body _ _ B).
  - exact (Body _ _ B).
Qed.

End SendFacts.

(** ** What the handshake does to the state *)

Module HandshakeFacts.
Import MCPClient.

Lemma lift_inv {A} (x : res A) s r s' :
  lift x s = (r, s') -> r = x /\ s' = s.
Proof. now intros [= <- <-]. Qed.

Lemma next_request_id_effect s :
  _next_request_id s =
    (Ok (request_id s + 1),
     State (servers s) (request_id s + 1) (spawned s) (log s)).
Proof. reflexivity. Qed.

Lemma set_available_tools_effect name tools s sv :
  Dict.get name (servers s) = Some sv ->
  exists s1,
    set_available_tools name tools s = (Ok tt, s1) /\
    touched name sv (Server (process_ sv) (command sv) (args sv) tools)
      [] s s1 /\
    request_id s1 = request_id s.
Proof.
  intros H. unfold set_available_tools, bind, gets, set_servers.
  rewrite H. eexists. split; [reflexivity|]. split; [split|]; cbn.
  - reflexivity.
  - repeat split.
  - reflexivity.
  - now rewrite List.app_nil_r.
  - reflexivity.
Qed.

Lemma store_tools_effect name v s sv r s' :
  Dict.get name (servers s) = Some sv ->
  store_tools name v s = (r, s') ->
  exists sv',
    touched name sv sv' [] s s' /\ request_id s' = request_id s /\
    match r with
    | Ok _ => True
    | _ => available_tools sv' = available_tools sv
    end.
Proof.
  intros Hget H. unfold store_tools, bind, lift, ret in H.
  destruct (Py.contains "result" v) as [[|]|e1|];
    [destruct (Py.getitem v "result") as [res|e2|];
     [destruct (Py.contains "tools" res) as [[|]|e3|];
      [destruct (Py.getitem res "tools") as [tools|e4|]| | |]| |]| | |].
  1: { destruct (set_available_tools_effect name tools s sv Hget)
         as (s2 & E & T & R).
       rewrite E in H. inversion H; subst.
       eexists. split; [exact T|]. now split. }
  all: inversion H; subst; exists sv;
    (split; [now apply touched_refl|]); now split.
Qed.

Lemma initialize_effect name s sv r s' :
  Dict.get name (servers s) = Some sv ->
  _initialize_server name s = (r, s') ->
  let p := pid (process_ sv) in
  let n := request_id s in
  exists sv' evs,
    touched name sv sv' evs s s' /\
    ((evs = [Write p (init_request n)] /\ request_id s' = n + 1 /\
      available_tools sv' = available_tools sv /\ r <> Ok tt)
     \/
     (evs = [Write p (init_request n); Write p (tools_request n)] /\
      request_id s' = n + 2 /\
      match r with
      | Ok _ => True
      | _ => available_tools sv' = available_tools sv
      end)) /\
    (forall e, r = Raise e ->
       exists msg, e = exception
         ("Failed to initialize server '" ++ name ++ "': " ++ msg)).
Proof.
  intros Hget H p n. unfold _initialize_server, servers_get in H.
  unfold bind at 1, gets in H. rewrite Hget in H.
  assert (Body : forall r1 s1,
    (id <- _next_request_id ;;
     _ <- _send_request name (request id "initialize" init_params) ;;
     id <- _next_request_id ;;
     tools_response <- _send_request name (request id "tools/list" (JDict [])) ;;
     store_tools name tools_response)%py s = (r1, s1) ->
    exists sv' evs,
      touched name sv sv' evs s s1 /\
      ((evs = [Write p (init_request n)] /\ request_id s1 = n + 1 /\
        available_tools sv' = available_tools sv /\ r1 <> Ok tt)
       \/
       (evs = [Write p (init_request n); Write p (tools_request n)] /\
        request_id s1 = n + 2 /\
        match r1 with
        | Ok _ => True
        | _ => available_tools sv' = available_tools sv
        end))).
  { intros r1 s1 B.
    unfold bind at 1 in B. rewrite next_request_id_effect in B.
    set (sa := State (servers s) (request_id s + 1) (spawned s) (log s)) in B.
    assert (Ga : Dict.get name (servers sa) = Some sv) by exact Hget.
    assert (First : forall r0, _send_request name
                (request (request_id s + 1) "initialize" init_params) sa
              = (r0, s1) -> r1 <> Ok tt ->
      exists sv' evs,
        touched name sv sv' evs s s1 /\
        ((evs = [Write p (init_request n)] /\ request_id s1 = n + 1 /\
          available_tools sv' = available_tools sv /\ r1 <> Ok tt)
         \/
         (evs = [Write p (init_request n); Write p (tools_request n)] /\
          request_id s1 = n + 2 /\
          match r1 with
          | Ok _ => True
          | _ => available_tools sv' = available_tools sv
          end))).
    { intros r0 S1 Hr.
      destruct (SendFacts.send_request_effect _ _ _ _ _ _ Ga S1)
        as (sv1 & T1 & A1 & R1).
      exists sv1. eexists. split.
      + destruct T1 as [X1 X2 X3 X4]. split; eauto.
      + left. split; [reflexivity|]. split; [exact R1|]. now split. }
    apply bind_inv in B.
    destruct B as [(v1 & sb & S1 & B)|[(e & S1 & ->)|(S1 & ->)]];
      [|exact (First _ S1 ltac:(discriminate))
       |exact (First _ S1 ltac:(discriminate))].
    - destruct (SendFacts.send_request_effect _ _ _ _ _ _ Ga S1)
        as (sv1 & T1 & A1 & R1).
      pose proof (touched_get _ _ _ _ _ _ T1) as Gb.
      unfold bind at 1 in B. rewrite next_request_id_effect in B.
      set (sc := State (servers sb) (request_id sb + 1) (spawned sb) (log sb)) in B.
      assert (Gc : Dict.get name (servers sc) = Some sv1) by exact Gb.
      assert (Tc : touched name sv sv1 [Write p (init_request n)] s sc).
      { destruct T1 as [X1 X2 X3 X4]. split; auto. }
      assert (Rc : request_id sc = n + 2).
      { subst sc. cbn. rewrite R1. subst sa n. cbn. lia. }
      assert (Hp : pid (process_ sv1) = p) by (symmetry; apply T1).
      assert (Hreq : request (request_id sb + 1) "tools/list" (JDict [])
                     = tools_request n).
      { unfold tools_request. f_equal. rewrite R1. subst sa n. cbn. lia. }
      rewrite Hreq in B.
      assert (Second : forall r0, _send_request name (tools_request n) sc
                = (r0, s1) ->
        match r1 with Ok _ => False | _ => True end ->
        exists sv' evs,
          touched name sv sv' evs s s1 /\
          ((evs = [Write p (init_request n)] /\ request_id s1 = n + 1 /\
            available_tools sv' = available_tools sv /\ r1 <> Ok tt)
           \/
           (evs = [Write p (init_request n); Write p (tools_request n)] /\
            request_id s1 = n + 2 /\
            match r1 with
            | Ok _ => True
            | _ => available_tools sv' = available_tools sv
            end))).
      { intros r0 S2 Hr.
        destruct (SendFacts.send_request_effect _ _ _ _ _ _ Gc S2)
          as (sv2 & T2 & A2 & R2).
        exists sv2. eexists. split.
        * eapply touched_trans; [exact Tc|exact T2].
        * right. rewrite Hp. split; [reflexivity|].
          split; [congruence|]. destruct r1; [contradiction| |]; congruence. }
      apply bind_inv in B.
      destruct B as [(v2 & sd & S2 & B)|[(e & S2 & ->)|(S2 & ->)]];
        [|exact (Second _ S2 I)|exact (Second _ S2 I)].
      destruct (SendFacts.send_request_effect _ _ _ _ _ _ Gc S2)
        as (sv2 & T2 & A2 & R2).
      destruct (store_tools_effect _ _ _ _ _ _
                  (touched_get _ _ _ _ _ _ T2) B) as (sv3 & T3 & R3 & A3).
      exists sv3. eexists. split.
      * eapply touched_trans; [eapply touched_trans; [exact Tc|exact T2]|exact T3].
      * right. rewrite Hp. split; [reflexivity|].
        split; [congruence|]. destruct r1; [exact I| |]; congruence. }
  apply try_except_inv in H.
  destruct H as [(a & B & ->)|[(e & s1 & B & Hh)|(B & ->)]].
  - destruct (Body _ _ B) as (sv' & evs & T & C).
    exists sv', evs. split; [exact T|]. split; [exact C|]. discriminate.
  - inversion Hh; subst. destruct (Body _ _ B) as (sv' & evs & T & C).
    exists sv', evs. split; [exact T|]. split.
    + destruct C as [(?&?&?&?)|(?&?&?)]; [left|right]; repeat split; eauto;
        discriminate.
    + intros e0 [= <-]. now exists (exn_str e).
  - destruct (Body _ _ B) as (sv' & evs & T & C).
    exists sv', evs. split; [exact T|]. split; [exact C|]. discriminate.
Qed.

End HandshakeFacts.

(** ** What a connect attempt does to the state *)

Module ConnectFacts.
Import MCPClient HandshakeFacts.

Lemma connect_refused name command config e0 s :
  connect_server name command config (Raise e0) s =
    (Raise (exception ("Failed to connect to MCP server '" ++ name ++ "': "
                       ++ exn_str e0)), s).
Proof. reflexivity. Qed.

Lemma connect_blocked name command config s :
  connect_server name command config Blocked s = (Blocked, s).
Proof. reflexivity. Qed.

Lemma connect_effect name command config b s r s' :
  connect_server name command config (Ok b) s = (r, s') ->
  let n := request_id s in
  let p := spawned s in
  exists sv' evs,
    servers s' = Dict.set name sv' (servers s) /\
    same_handle (fresh_entry command config b s) sv' /\
    spawned s' = S (spawned s) /\
    log s' = (log s ++ spawn_event command config s :: evs)%list /\
    ((evs = [Write p (init_request n)] /\ request_id s' = n + 1 /\
      available_tools sv' = JList [] /\ r <> Ok tt)
     \/
     (evs = [Write p (init_request n); Write p (tools_request n)] /\
      request_id s' = n + 2 /\
      match r with
      | Ok _ => True
      | _ => available_tools sv' = JList []
      end)) /\
    (forall e, r = Raise e ->
       exists msg, e = exception
         ("Failed to connect to MCP server '" ++ name ++ "': " ++ msg)).
Proof.
  intros H n p. unfold connect_server in H.
  apply try_except_inv in H.
  set (sv0 := fresh_entry command config b s).
  set (s1 := State (Dict.set name sv0 (servers s)) (request_id s)
                   (S (spawned s))
                   (log s ++ [spawn_event command config s])%list).
  assert (G1 : Dict.get name (servers s1) = Some sv0)
    by apply DictFacts.get_set_same.
  assert (Body : forall r1 s2,
    (process <- Proc.create_subprocess_exec command
                  (Dict.get_or "args" config (JList []))
                  (Dict.get_or "env" config (JDict [])) (Ok b) ;;
     servers_setitem name
       (Server process command (Dict.get_or "args" config (JList []))
               (JList [])) ;;
     _initialize_server name)%py s = (r1, s2) ->
    _initialize_server name s1 = (r1, s2)).
  { intros r1 s2 B. exact B. }
  assert (Fin : forall r1 s2, _initialize_server name s1 = (r1, s2) ->
    exists sv' evs,
      servers s2 = Dict.set name sv' (servers s) /\
      same_handle sv0 sv' /\
      spawned s2 = S (spawned s) /\
      log s2 = (log s ++ spawn_event command config s :: evs)%list /\
      ((evs = [Write p (init_request n)] /\ request_id s2 = n + 1 /\
        available_tools sv' = JList [] /\ r1 <> Ok tt)
       \/
       (evs = [Write p (init_request n); Write p (tools_request n)] /\
        request_id s2 = n + 2 /\
        match r1 with
        | Ok _ => True
        | _ => available_tools sv' = JList []
        end))).
  { intros r1 s2 I.
    destruct (initialize_effect _ _ _ _ _ G1 I) as (sv' & evs & T & C & _).
    exists sv', evs. destruct T as [T1 T2 T3 T4].
    split; [|split; [exact T2|split; [exact T3|split]]].
    - rewrite T1. apply DictFacts.set_set.
    - rewrite T4. subst s1. cbn [log]. now rewrite <- List.app_assoc.
    - exact C. }
  destruct H as [(a & B & ->)|[(e & s2 & B & Hh)|(B & ->)]].
  - destruct (Fin _ _ (Body _ _ B)) as (sv' & evs & F).
    exists sv', evs. repeat (split; [apply F|]). discriminate.
  - inversion Hh; subst.
    destruct (Fin _ _ (Body _ _ B)) as (sv' & evs & F1 & F2 & F3 & F4 & F5).
    exists sv', evs. repeat (split; [assumption|]). split.
    + destruct F5 as [(?&?&?&?)|(?&?&?)]; [left|right]; repeat split; eauto;
        discriminate.
    + intros e0 [= <-]. now exists (exn_str e).
  - destruct (Fin _ _ (Body _ _ B)) as (sv' & evs & F).
    exists sv', evs. repeat (split; [apply F|]). discriminate.
Qed.

End ConnectFacts.

(** ** What a tool call does to the state *)

Module CallFacts.
Import MCPClient HandshakeFacts.

Lemma tool_result_state response s r s' :
  tool_result response s = (r, s') -> s' = s.
Proof.
  unfold tool_result, bind, lift, ret, raise.
  destruct (Py.contains "result" response) as [[|]|e1|].
  - destruct (Py.getitem response "result"); now intros [= _ <-].
  - destruct (Py.contains "error" response) as [[|]|e2|].
    + destruct (Py.getitem response "error") as [err|e3|];
        [destruct (Py.get err "message" (JStr "Unknown error"))| |];
        now intros [= _ <-].
    + now intros [= _ <-].
    + now intros [= _ <-].
    + now intros [= _ <-].
  - now intros [= _ <-].
  - now intros [= _ <-].
Qed.

(** The list of names is computed without any await. *)
Lemma map_res_returns {A B} (f : A -> res B) l :
  (forall x, f x <> Blocked) -> map_res f l <> Blocked.
Proof.
  intros Hf. induction l as [|x l IH]; cbn [map_res]; [discriminate|].
  destruct (f x) eqn:Ex; [|discriminate|now elim (Hf x)].
  destruct (map_res f l); [discriminate|discriminate|congruence].
Qed.

Lemma tool_names_returns sv : tool_names sv <> Blocked.
Proof.
  unfold tool_names.
  destruct (available_tools sv) as [| | |str|items|fields]; cbn [Py.iter];
    try discriminate; apply map_res_returns; intros []; discriminate.
Qed.

Lemma call_unknown_server sn tn a s :
  Dict.get sn (servers s) = None ->
  call_tool sn tn a s =
    (Raise (exception ("Server '" ++ sn ++ "' not connected")), s).
Proof.
  intros H. unfold call_tool, servers_get, bind, gets. now rewrite H.
Qed.

Lemma call_unlisted_tool sn tn a s sv names :
  Dict.get sn (servers s) = Some sv ->
  tool_names sv = Ok names ->
  existsb (Py.is_str tn) names = false ->
  call_tool sn tn a s = (Raise (exception (unavailable sn tn names)), s).
Proof.
  intros H N E. unfold call_tool, servers_get, bind, gets, lift.
  rewrite H, N, E. reflexivity.
Qed.

(** The message for an unlisted tool holds the [repr] of every name. *)
Lemma unavailable_shape sn tn names n :
  In (JStr n) names ->
  exists u v, unavailable sn tn names = u ++ PyStr.repr n ++ v.
Proof.
  intros Hin.
  assert (Hpart : In (PyStr.repr n) (map Py.repr names)).
  { change (PyStr.repr n) with (Py.repr (JStr n)). now apply in_map. }
  destruct (PyStrFacts.join_part ", " _ _ Hpart) as (x & y & J).
  unfold unavailable. rewrite PyFacts.repr_list, J.
  exists ("Tool '" ++ tn ++ "' not available on server '" ++ sn
          ++ "'. Available tools: " ++ "[" ++ x), (y ++ "]").
  rewrite !PyStrFacts.app_assoc. reflexivity.
Qed.

Lemma call_bad_tool_list sn tn a s sv e :
  Dict.get sn (servers s) = Some sv ->
  tool_names sv = Raise e ->
  call_tool sn tn a s = (Raise e, s).
Proof.
  intros H N. unfold call_tool, servers_get, bind, gets, lift.
  now rewrite H, N.
Qed.

(** A call for a listed tool: one id is taken, one request is written,
    and the outcome is what [tool_result] makes of the answer, wrapped
    on failure. *)
Lemma call_listed_tool sn tn a s sv names :
  Dict.get sn (servers s) = Some sv ->
  tool_names sv = Ok names ->
  existsb (Py.is_str tn) names = true ->
  call_tool sn tn a s =
    try_except
      (id <- _next_request_id ;;
       response <- _send_request sn
         (request id "tools/call"
            (JDict [("name", JStr tn); ("arguments", a)])) ;;
       tool_result response)%py
      (fun e => raise (exception
         ("Failed to call tool '" ++ tn ++ "' on server '" ++ sn ++ "': "
          ++ exn_str e))) s.
Proof.
  intros H N E. unfold call_tool, servers_get.
  unfold bind at 1, gets. rewrite H.
  unfold bind at 1, lift. rewrite N, E. reflexivity.
Qed.

Lemma call_tool_effect sn tn a s r s' :
  call_tool sn tn a s = (r, s') ->
  (s' = s /\ exists e, r = Raise e) \/
  (exists sv sv',
     Dict.get sn (servers s) = Some sv /\
     touched sn sv sv'
       [Write (pid (process_ sv)) (call_request (request_id s) tn a)] s s' /\
     available_tools sv' = available_tools sv /\
     request_id s' = request_id s + 1).
Proof.
  intros H.
  destruct (Dict.get sn (servers s)) as [sv|] eqn:G.
  2: { rewrite (call_unknown_server _ _ _ _ G) in H. inversion H; eauto. }
  destruct (tool_names sv) as [names|e|] eqn:N.
  3: { now elim (tool_names_returns sv). }
  2: { rewrite (call_bad_tool_list _ _ _ _ _ _ G N) in H. inversion H; eauto. }
  destruct (existsb (Py.is_str tn) names) eqn:E.
  2: { rewrite (call_unlisted_tool _ _ _ _ _ _ G N E) in H.
       inversion H; eauto. }
  rewrite (call_listed_tool _ _ _ _ _ _ G N E) in H. right.
  assert (Body : forall r1 s1,
    (id <- _next_request_id ;;
     response <- _send_request sn
       (request id "tools/call"
          (JDict [("name", JStr tn); ("arguments", a)])) ;;
     tool_result response)%py s = (r1, s1) ->
    exists sv',
      touched sn sv sv'
        [Write (pid (process_ sv)) (call_request (request_id s) tn a)] s s1 /\
      available_tools sv' = available_tools sv /\
      request_id s1 = request_id s + 1).
  { intros r1 s1 B. unfold bind at 1 in B.
    rewrite next_request_id_effect in B.
    set (sa := State (servers s) (request_id s + 1) (spawned s) (log s)) in B.
    assert (Ga : Dict.get sn (servers sa) = Some sv) by exact G.
    assert (Sent : forall r0 sb, _send_request sn
                (request (request_id s + 1) "tools/call"
                   (JDict [("name", JStr tn); ("arguments", a)])) sa
              = (r0, sb) ->
      exists sv',
        touched sn sv sv'
          [Write (pid (process_ sv)) (call_request (request_id s) tn a)]
          s sb /\
        available_tools sv' = available_tools sv /\
        request_id sb = request_id s + 1).
    { intros r0 sb S1.
      destruct (SendFacts.send_request_effect _ _ _ _ _ _ Ga S1)
        as (sv1 & [X1 X2 X3 X4] & A1 & R1).
      exists sv1. split; [split; assumption|]. split; [exact A1|exact R1]. }
    apply bind_inv in B.
    destruct B as [(v & sb & S1 & B)|[(e & S1 & _)|(S1 & _)]].
    - apply tool_result_state in B. subst s1. exact (Sent _ _ S1).
    - exact (Sent _ _ S1).
    - exact (Sent _ _ S1). }
  apply try_except_inv in H.
  destruct H as [(v & B & _)|[(e & s1 & B & Hh)|(B & _)]].
  - destruct (Body _ _ B) as (sv' & F). exists sv, sv'. now split.
  - inversion Hh; subst. destruct (Body _ _ B) as (sv' & F).
    exists sv, sv'. now split.
  - destruct (Body _ _ B) as (sv' & F). exists sv, sv'. now split.
Qed.

End CallFacts.

(** ** What the teardown does to the state *)

Module DisconnectFacts.
Import MCPClient.

Lemma disconnect_one_effect item s :
  disconnect_one item s =
    (if stalls item then Blocked else Ok tt,
     with_log s (log s ++ shutdown_events item)%list).
Proof.
  destruct item as [name [[p i rc [ws ls cf g tf ff]] c a t]].
  unfold with_log.
  destruct i, cf as [cm|], g as [rc'| |wm], tf as [tm|], ff as [rc''| |fm];
    cbn; unfold emit; cbn; rewrite <- ?List.app_assoc; cbn; reflexivity.
Qed.

Lemma for_each_disconnect items s :
  for_each items disconnect_one s =
    (if existsb stalls items then Blocked else Ok tt,
     with_log s (log s ++ teardown_events items)%list).
Proof.
  revert s. induction items as [|item items IH]; intros s.
  - cbn. unfold with_log. rewrite List.app_nil_r. now destruct s.
  - cbn [for_each teardown_events existsb]. unfold bind.
    rewrite disconnect_one_effect.
    destruct (stalls item).
    + cbn [orb]. now rewrite List.app_nil_r.
    + rewrite IH. unfold with_log. cbn.
      now rewrite <- List.app_assoc.
Qed.

Lemma teardown_events_app l1 l :
  existsb stalls l1 = false ->
  teardown_events (l1 ++ l) =
    (flat_map shutdown_events l1 ++ teardown_events l)%list.
Proof.
  induction l1 as [|item l1 IH]; [reflexivity|].
  cbn [existsb app teardown_events flat_map]. intros H.
  apply orb_false_elim in H. destruct H as [H1 H2].
  now rewrite H1, IH, List.app_assoc.
Qed.

Lemma teardown_all items :
  existsb stalls items = false ->
  teardown_events items = flat_map shutdown_events items.
Proof.
  induction items as [|item items IH]; [reflexivity|].
  cbn [existsb teardown_events flat_map]. intros H.
  apply orb_false_elim in H. destruct H as [H1 H2].
  now rewrite H1, IH.
Qed.

(** The pass comes to its end, and clears the registry, unless an entry
    stalls; then it goes no further than that entry. *)
Lemma disconnect_all_effect s :
  disconnect_all s =
    if existsb stalls (servers s)
    then (Blocked, with_log s (log s ++ teardown_events (servers s))%list)
    else (Ok tt,
          State [] (request_id s) (spawned s)
                (log s ++ flat_map shutdown_events (servers s))%list).
Proof.
  unfold disconnect_all. unfold bind at 1, gets.
  unfold bind. rewrite for_each_disconnect.
  destruct (existsb stalls (servers s)) eqn:E; [reflexivity|].
  now rewrite (teardown_all _ E).
Qed.

Lemma disconnect_all_counter s :
  request_id (snd (disconnect_all s)) = request_id s /\
  spawned (snd (disconnect_all s)) = spawned s.
Proof.
  rewrite disconnect_all_effect.
  destruct (existsb stalls (servers s)); split; reflexivity.
Qed.

Lemma disconnect_all_registry s k v :
  In (k, v) (servers (snd (disconnect_all s))) -> In (k, v) (servers s).
Proof.
  rewrite disconnect_all_effect.
  destruct (existsb stalls (servers s)); cbn; [auto|intros []].
Qed.

Lemma disconnect_all_log s :
  log (snd (disconnect_all s)) = (log s ++ teardown_events (servers s))%list.
Proof.
  rewrite disconnect_all_effect.
  destruct (existsb stalls (servers s)) eqn:E; [reflexivity|].
  cbn [snd log]. now rewrite (teardown_all _ E).
Qed.


(** The steps of one entry whose process has a pipe for its input. *)
Lemma shutdown_events_form name p rc ws ls cf g tf ff c a t :
  shutdown_events
    (name, Server (Process p true rc (Peer ws ls cf g tf ff)) c a t) =
  CloseStdin p ::
  match cf with
  | Some m => [report name m]
  | None =>
      WaitFor p 2 ::
      match g with
      | Exits _ => []
      | WaitFails m => [report name m]
      | TimesOut =>
          Terminate p ::
          match tf with
          | Some m => [report name m]
          | None =>
              Wait p ::
              match ff with
              | WaitFails m => [report name m]
              | _ => []
              end
          end
      end
  end.
Proof.
  destruct cf as [cm|], g as [rc'| |wm], tf as [tm|], ff as [rc''| |fm];
    reflexivity.
Qed.

Lemma shutdown_events_no_write item :
  count_writes (shutdown_events item) = 0%nat.
Proof.
  destruct item as [name [[p i rc [ws ls cf g tf ff]] c a t]].
  destruct i, cf as [cm|], g as [rc'| |wm], tf as [tm|], ff as [rc''| |fm];
    reflexivity.
Qed.

Lemma teardown_events_no_write items :
  count_writes (teardown_events items) = 0%nat.
Proof.
  assert (App : forall a b,
    count_writes (a ++ b) = (count_writes a + count_writes b)%nat).
  { intros a b. induction a as [|[] a IH]; cbn; auto. }
  induction items as [|item items IH]; [reflexivity|].
  cbn [teardown_events]. rewrite App, shutdown_events_no_write.
  destruct (stalls item); [reflexivity|exact IH].
Qed.

End DisconnectFacts.

(** ** Runs of calls *)

Module RunFacts.
Import MCPClient.

Lemma run_app cs1 cs2 s : run (cs1 ++ cs2) s = run cs2 (run cs1 s).
Proof. apply fold_left_app. Qed.

Lemma run_invariant (P : state -> Prop) s0 :
  P s0 -> (forall c s, P s -> P (exec c s)) -> forall cs, P (run cs s0).
Proof.
  intros H0 Hstep cs. revert s0 H0.
  induction cs as [|c cs IH]; intros s0 H0; cbn; auto.
Qed.

Lemma exec_get_available_tools n s : exec (GetAvailableTools n) s = s.
Proof.
  unfold exec. unfold get_available_tools, servers_get, bind, gets.
  now destruct (Dict.get n (servers s)).
Qed.

Lemma exec_is_connected n s : exec (IsConnected n) s = s.
Proof.
  unfold exec. unfold is_connected, servers_get, bind, gets.
  now destruct (Dict.get n (servers s)).
Qed.

(** *** Numbering of the requests *)

Lemma count_writes_app a b :
  count_writes (a ++ b) = (count_writes a + count_writes b)%nat.
Proof.
  induction a as [|e a IH]; [reflexivity|].
  destruct e; cbn; now rewrite ?IH.
Qed.

Lemma numbered_app n a b :
  numbered n (a ++ b) <->
  numbered n a /\ numbered (n + Z.of_nat (count_writes a)) b.
Proof.
  revert n. induction a as [|e a IH]; intros n.
  - cbn. rewrite Z.add_0_r. tauto.
  - destruct e; cbn [app numbered count_writes]; rewrite ?IH; try tauto.
    replace (n + 1 + Z.of_nat (count_writes a))
      with (n + Z.of_nat (S (count_writes a))) by lia.
    tauto.
Qed.


Lemma numbered_request_ids n l :
  numbered n l ->
  request_ids l = map (fun i => n + Z.of_nat i) (seq 1 (count_writes l)).
Proof.
  revert n. induction l as [|e l IH]; intros n H; [reflexivity|].
  destruct e as [| q r | | | | |]; try exact (IH n H).
  destruct H as [Hid H].
  change (request_ids (Write q r :: l)) with (id_of r ++ request_ids l)%list.
  rewrite Hid, (IH _ H). cbn [count_writes seq map app].
  f_equal; try lia.
  rewrite <- (seq_shift (count_writes l) 1), map_map.
  apply map_ext. intros i. lia.
Qed.




(** What one call adds to the log and to the counter. *)
Lemma exec_log c s :
  exists evs,
    log (exec c s) = (log s ++ evs)%list /\
    numbered (request_id s) evs /\
    request_id (exec c s) = request_id s + Z.of_nat (count_writes evs).
Proof.
  assert (Same : forall s', s' = s ->
    exists evs, log s' = (log s ++ evs)%list /\
      numbered (request_id s) evs /\
      request_id s' = request_id s + Z.of_nat (count_writes evs)).
  { intros s' ->. exists []. rewrite List.app_nil_r. cbn.
    repeat split; lia. }
  destruct c as [name cmd config [b|e0|]|sn tn a| |n|n].
  - unfold exec.
    destruct (connect_server name cmd config (Ok b) s) as [r s'] eqn:E.
    destruct (ConnectFacts.connect_effect _ _ _ _ _ _ _ E)
      as (sv' & evs & _ & _ & _ & L & C & _).
    exists (spawn_event cmd config s :: evs). split; [exact L|].
    destruct C as [(-> & R & _)|(-> & R & _)]; cbn; rewrite R.
    + repeat split; lia.
    + repeat split; try lia; f_equal; lia.
  - apply Same. reflexivity.
  - apply Same. reflexivity.
  - unfold exec. destruct (call_tool sn tn a s) as [r s'] eqn:E.
    destruct (CallFacts.call_tool_effect _ _ _ _ _ _ E)
      as [(-> & _)|(sv & sv' & _ & [_ _ _ L] & _ & R)].
    + now apply Same.
    + eexists. split; [exact L|]. cbn. rewrite R. repeat split; lia.
  - unfold exec. exists (teardown_events (servers s)).
    split; [apply DisconnectFacts.disconnect_all_log|].
    rewrite DisconnectFacts.teardown_events_no_write.
    split; [|rewrite (proj1 (DisconnectFacts.disconnect_all_counter s));
             cbn; lia].
    assert (Z : forall l n, count_writes l = 0%nat -> numbered n l).
    { induction l as [|[] l IH]; intros n0 H; cbn in *; auto; discriminate. }
    apply Z, DisconnectFacts.teardown_events_no_write.
  - apply Same, exec_get_available_tools.
  - apply Same, exec_is_connected.
Qed.

Lemma exec_ids_in_order c s : ids_in_order s -> ids_in_order (exec c s).
Proof.
  intros [Hn Hr]. destruct (exec_log c s) as (evs & L & N & R).
  unfold ids_in_order. rewrite L, R, count_writes_app. split.
  - apply numbered_app. split; [exact Hn|]. cbn. now rewrite <- Hr.
  - lia.
Qed.

Lemma reachable_ids_in_order cs : ids_in_order (run cs __init__).
Proof.
  apply run_invariant; [|exact exec_ids_in_order]. split; reflexivity.
Qed.

Lemma exec_counter_grows c s : request_id s <= request_id (exec c s).
Proof. destruct (exec_log c s) as (evs & _ & _ & R). lia. Qed.

Lemma run_counter_grows cs s : request_id s <= request_id (run cs s).
Proof.
  revert s. induction cs as [|c cs IH]; intros s.
  - apply Z.le_refl.
  - change (run (c :: cs) s) with (run cs (exec c s)).
    pose proof (exec_counter_grows c s). specialize (IH (exec c s)). lia.
Qed.

Lemma connect_takes_an_id name cmd config b s :
  request_id s < request_id (exec (ConnectServer name cmd config (Ok b)) s).
Proof.
  unfold exec.
  destruct (connect_server name cmd config (Ok b) s) as [r s'] eqn:E.
  destruct (ConnectFacts.connect_effect _ _ _ _ _ _ _ E)
    as (sv' & evs & _ & _ & _ & _ & C & _).
  cbn [snd]. destruct C as [(_ & R & _)|(_ & R & _)]; rewrite R; lia.
Qed.

(** *** The pipes of the registered processes *)

Lemma in_set (name : string) (x : server) d k v :
  In (k, v) (Dict.set name x d) -> (k, v) = (name, x) \/ In (k, v) d.
Proof.
  induction d as [|[k0 v0] d IH]; cbn.
  - intros [H|[]]. now left.
  - destruct (String.eqb name k0); cbn; intros [H|H]; auto.
    destruct (IH H); auto.
Qed.

Lemma exec_pipes_open c s : pipes_open s -> pipes_open (exec c s).
Proof.
  intros P.
  destruct c as [name cmd config [b|e0|]|sn tn a| |n|n].
  - unfold exec.
    destruct (connect_server name cmd config (Ok b) s) as [r s'] eqn:E.
    destruct (ConnectFacts.connect_effect _ _ _ _ _ _ _ E)
      as (sv' & evs & S1 & (_ & Hi & _) & _).
    cbn [snd]. intros k v Hin. rewrite S1 in Hin.
    destruct (in_set _ _ _ _ _ Hin) as [[= -> ->]|Hin']; [|eauto].
    now rewrite <- Hi.
  - exact P.
  - exact P.
  - unfold exec. destruct (call_tool sn tn a s) as [r s'] eqn:E.
    destruct (CallFacts.call_tool_effect _ _ _ _ _ _ E)
      as [(-> & _)|(sv & sv' & G & [S1 (_ & Hi & _) _ _] & _)];
      [exact P|].
    cbn [snd]. intros k v Hin. rewrite S1 in Hin.
    destruct (in_set _ _ _ _ _ Hin) as [[= -> ->]|Hin']; [|eauto].
    rewrite <- Hi. exact (P _ _ (DictFacts.get_in _ _ _ G)).
  - unfold exec. intros k v Hin.
    exact (P _ _ (DisconnectFacts.disconnect_all_registry _ _ _ Hin)).
  - now rewrite exec_get_available_tools.
  - now rewrite exec_is_connected.
Qed.

Lemma reachable_pipes_open cs : pipes_open (run cs __init__).
Proof.
  apply run_invariant; [|exact exec_pipes_open]. intros k v [].
Qed.

End RunFacts.

(** ** What one request, the handshake and a connect attempt come to *)

Module AnswerFacts.
Import MCPClient.

Ltac fields :=
  cbn [servers request_id spawned log process_ behaviour writes stdout
       close_fault graceful terminate_fault final_wait
       command args available_tools pid stdin returncode
       Proc.set_stdout Proc.set_writes exn_cls exn_str exception tl fst snd].

Lemma send_request_answer name req s sv :
  Dict.get name (servers s) = Some sv ->
  exists sv' s',
    _send_request name req s = (answer (behaviour (process_ sv)), s') /\
    touched name sv sv' [Write (pid (process_ sv)) req] s s' /\
    available_tools sv' = available_tools sv /\
    request_id s' = request_id s /\
    behaviour (process_ sv') = after_request (behaviour (process_ sv)).
Proof.
  intros Hget.
  assert (E : exists sv' s',
    _send_request name req s = (answer (behaviour (process_ sv)), s') /\
    Dict.get name (servers s') = Some sv' /\
    behaviour (process_ sv') = after_request (behaviour (process_ sv))).
  { destruct sv as [[p i rc [ws ls cf g tf ff]] c a t].
    unfold _send_request, servers_get. unfold bind at 1, gets. rewrite Hget.
    unfold try_except, Proc.stdin_write, Proc.stdout_readline, Proc.current,
      Proc.update, bind, emit, gets, ret, set_servers, raise, answer,
      after_request, Proc.json_loads_decode.
    unfold Proc.set_writes, Proc.set_stdout.
    repeat (progress (fields; rewrite ?Hget, ?DictFacts.get_set_same)).
    destruct ws as [|[m|] ws];
      repeat (progress (fields; rewrite ?Hget, ?DictFacts.get_set_same));
      try (destruct ls as [|[[v|m'|m']|m'|] ls];
           repeat (progress (fields; rewrite ?Hget, ?DictFacts.get_set_same))).
    all: eexists; eexists; (split; [reflexivity|]);
      repeat (progress (fields; rewrite ?Hget, ?DictFacts.get_set_same));
      (split; [reflexivity|]); reflexivity. }
  destruct E as (sv' & s' & E & G & B).
  exists sv', s'. split; [exact E|].
  destruct (SendFacts.send_request_effect _ _ _ _ _ _ Hget E)
    as (sv'' & T & A & R).
  pose proof (touched_get _ _ _ _ _ _ T) as G'.
  rewrite G in G'. injection G' as <-.
  auto.
Qed.

Lemma initialize_outcome name s sv :
  Dict.get name (servers s) = Some sv ->
  let b := behaviour (process_ sv) in
  let p := pid (process_ sv) in
  let n := request_id s in
  exists s1 s2 sv1 sv2,
    touched name sv sv1 [Write p (init_request n)] s s1 /\
    request_id s1 = n + 1 /\
    touched name sv sv2
      [Write p (init_request n); Write p (tools_request n)] s s2 /\
    request_id s2 = n + 2 /\
    available_tools sv1 = available_tools sv /\
    available_tools sv2 = available_tools sv /\
    behaviour (process_ sv2) = after_request (after_request b) /\
    _initialize_server name s =
      match answer b with
      | Raise e => (Raise (init_error name e), s1)
      | Blocked => (Blocked, s1)
      | Ok _ =>
          match answer (after_request b) with
          | Raise e => (Raise (init_error name e), s2)
          | Blocked => (Blocked, s2)
          | Ok v =>
              try_except (store_tools name v)
                (fun e => raise (init_error name e)) s2
          end
      end.
Proof.
  intros Hget b p n.
  set (sa := State (servers s) (request_id s + 1) (spawned s) (log s)).
  assert (Ga : Dict.get name (servers sa) = Some sv) by exact Hget.
  destruct (send_request_answer name
              (request (request_id s + 1) "initialize" init_params) sa sv Ga)
    as (sv1 & sb & E1 & T1 & A1 & R1 & B1).
  set (sc := State (servers sb) (request_id sb + 1) (spawned sb) (log sb)).
  pose proof (touched_get _ _ _ _ _ _ T1) as Gb.
  assert (Gc : Dict.get name (servers sc) = Some sv1) by exact Gb.
  assert (Tb : touched name sv sv1 [Write p (init_request n)] s sb).
  { destruct T1 as [X1 X2 X3 X4]. split; auto. }
  assert (Tc : touched name sv sv1 [Write p (init_request n)] s sc).
  { destruct T1 as [X1 X2 X3 X4]. split; auto. }
  assert (Hp : pid (process_ sv1) = p) by (symmetry; apply T1).
  assert (Hreq : request (request_id sb + 1) "tools/list" (JDict [])
                 = tools_request n).
  { unfold tools_request. f_equal. rewrite R1. subst sa n. cbn. lia. }
  destruct (send_request_answer name (tools_request n) sc sv1 Gc)
    as (sv2 & sd & E2 & T2 & A2 & R2 & B2).
  rewrite Hp in T2.
  exists sb, sd, sv1, sv2.
  split; [exact Tb|]. split; [rewrite R1; reflexivity|].
  split; [exact (touched_trans _ _ _ _ _ _ _ _ _ Tc T2)|].
  split; [rewrite R2; subst sc; cbn; rewrite R1; subst sa n; cbn; lia|].
  split; [exact A1|].
  split; [congruence|]. split; [rewrite B2, B1; reflexivity|].
  unfold _initialize_server, servers_get.
  unfold bind at 1, gets. rewrite Hget.
  unfold try_except at 1.
  unfold bind at 1. rewrite HandshakeFacts.next_request_id_effect.
  unfold bind at 1. fold sa. rewrite E1. fold b.
  destruct (answer b) as [v1|e1|]; [|reflexivity|reflexivity].
  unfold bind at 1. rewrite HandshakeFacts.next_request_id_effect.
  fold sc. rewrite Hreq.
  unfold bind at 1. rewrite E2. rewrite B1. fold b.
  destruct (answer (after_request b)) as [v2|e2|]; reflexivity.
Qed.

Lemma connect_outcome name cmd config b s :
  connect_server name cmd config (Ok b) s =
    try_except (_initialize_server name)
      (fun e => raise (connect_error name e)) (started name cmd config b s).
Proof. reflexivity. Qed.

Lemma started_get name cmd config b s :
  Dict.get name (servers (started name cmd config b s)) =
    Some (fresh_entry cmd config b s).
Proof. apply DictFacts.get_set_same. Qed.

Lemma store_tools_object name fields s sv :
  Dict.get name (servers s) = Some sv ->
  Dict.get "result" fields = None \/
  (exists result, Dict.get "result" fields = Some (JDict result)) ->
  exists s' sv',
    store_tools name (JDict fields) s = (Ok tt, s') /\
    touched name sv sv' [] s s' /\
    request_id s' = request_id s /\
    available_tools sv' =
      match Dict.get "result" fields with
      | Some (JDict result) =>
          Dict.get_or "tools" result (available_tools sv)
      | _ => available_tools sv
      end.
Proof.
  intros Hget H.
  unfold store_tools, bind, lift, ret, Py.contains, Py.getitem, Dict.mem,
    Dict.get_or.
  destruct H as [H|(result & H)]; rewrite H.
  - exists s, sv. split; [reflexivity|]. split; [now apply touched_refl|].
    split; reflexivity.
  - destruct (Dict.get "tools" result) as [tools|] eqn:Et.
    + destruct (HandshakeFacts.set_available_tools_effect name tools s sv Hget)
        as (s2 & E & T & R).
      rewrite E. exists s2. eexists. split; [reflexivity|].
      split; [exact T|]. split; [exact R|reflexivity].
    + exists s, sv. split; [reflexivity|]. split; [now apply touched_refl|].
      split; reflexivity.
Qed.

Lemma tool_names_not_objects items t :
  In t items -> (forall fields, t <> JDict fields) ->
  exists msg,
    map_res (fun t => Py.get t "name" JNull) items =
      Raise (Exc AttributeError msg).
Proof.
  intros Hin Ht. induction items as [|x items IH]; [contradiction|].
  cbn [map_res].
  destruct x; try (eexists; reflexivity).
  destruct Hin as [<-|Hin]; [now elim (Ht fields)|].
  destruct (IH Hin) as (msg & E). cbn [Py.get]. rewrite E. now exists msg.
Qed.

End AnswerFacts.

(** ** The processes of the registry *)

Module RegistryFacts.
Import MCPClient.

Lemma registered_set_same name sv sv' (d : Dict.t server) :
  Dict.get name d = Some sv -> pid (process_ sv') = pid (process_ sv) ->
  pids (Dict.set name sv' d) = pids d.
Proof.
  intros Hget Hp. induction d as [|[k v] d IH]; [discriminate|].
  unfold pids in *. cbn in *. destruct (String.eqb name k) eqn:E.
  - injection Hget as ->. cbn. now rewrite Hp.
  - cbn. now rewrite IH.
Qed.

Lemma registered_set_in name sv (d : Dict.t server) p :
  In p (pids (Dict.set name sv d)) ->
  p = pid (process_ sv) \/ In p (pids d).
Proof.
  unfold pids. induction d as [|[k v] d IH]; cbn.
  - intros [<-|[]]. now left.
  - destruct (String.eqb name k); cbn.
    + intros [<-|H]; [now left|now right; right].
    + intros [<-|H]; [now right; left|].
      destruct (IH H); [now left|now right; right].
Qed.

Lemma registered_set_nodup name sv (d : Dict.t server) :
  NoDup (pids d) -> ~ In (pid (process_ sv)) (pids d) ->
  NoDup (pids (Dict.set name sv d)).
Proof.
  unfold pids. induction d as [|[k v] d IH]; cbn; intros Hn Hnot.
  - constructor; [intros []|constructor].
  - inversion Hn as [|? ? Hk Hd]; subst.
    destruct (String.eqb name k); cbn.
    + constructor; [|exact Hd]. intros H. apply Hnot. now right.
    + constructor.
      * intros H. apply registered_set_in in H. destruct H as [H|H].
        -- apply Hnot. left. exact H.
        -- now apply Hk.
      * apply IH; [exact Hd|]. intros H. apply Hnot. now right.
Qed.

(** The process replaced is no longer in the registry. *)
Lemma registered_set_gone name old sv (d : Dict.t server) :
  Dict.get name d = Some old -> NoDup (pids d) ->
  pid (process_ sv) <> pid (process_ old) ->
  ~ In (pid (process_ old)) (pids (Dict.set name sv d)).
Proof.
  intros Hget Hn Hne. induction d as [|[k v] d IH]; [discriminate|].
  unfold pids in *. cbn in *. inversion Hn as [|? ? Hk Hd]; subst.
  destruct (String.eqb name k) eqn:E.
  - injection Hget as ->. cbn. intros [H|H]; [now apply Hne|now apply Hk].
  - cbn. intros [H|H].
    + apply Hk. rewrite H.
      apply DictFacts.get_in in Hget.
      apply (in_map (fun kv : string * server => pid (process_ (snd kv)))) in Hget. exact Hget.
    + now apply IH.
Qed.

(** What the teardown of an entry does concerns its process. *)
Lemma shutdown_events_pid name sv e p :
  In e (shutdown_events (name, sv)) -> event_pid e = Some p ->
  p = pid (process_ sv).
Proof.
  destruct sv as [[q i rc [ws ls cf g tf ff]] c a t].
  unfold shutdown_events.
  destruct i, cf as [cm|], g as [rc'| |wm], tf as [tm|], ff as [rc''| |fm];
    cbn; intros H E;
    repeat (destruct H as [<-|H]; [cbn in E; congruence|]);
    contradiction.
Qed.

Lemma shutdown_events_closed name sv :
  stdin (process_ sv) = true ->
  closed (shutdown_events (name, sv)) = [pid (process_ sv)].
Proof.
  destruct sv as [[q i rc [ws ls cf g tf ff]] c a t]. cbn [process_ stdin].
  intros ->. rewrite DisconnectFacts.shutdown_events_form.
  destruct cf as [cm|], g as [rc'| |wm], tf as [tm|], ff as [rc''| |fm];
    reflexivity.
Qed.

Lemma closed_app a b : closed (a ++ b) = (closed a ++ closed b)%list.
Proof. unfold closed. apply flat_map_app. Qed.

Lemma teardown_closed (d : Dict.t server) :
  (forall k v, In (k, v) d -> stdin (process_ v) = true) ->
  closed (flat_map shutdown_events d) = pids d.
Proof.
  induction d as [|[k v] d IH]; intros H; [reflexivity|].
  cbn [flat_map map]. rewrite closed_app, shutdown_events_closed, IH.
  - reflexivity.
  - intros k' v' Hin. apply (H k' v'). now right.
  - apply (H k v). now left.
Qed.

(** The pass closes the input of the processes of the registry in its
    order, as far as it goes. *)
Lemma teardown_closed_prefix (d : Dict.t server) :
  (forall k v, In (k, v) d -> stdin (process_ v) = true) ->
  exists rest, pids d = (closed (teardown_events d) ++ rest)%list.
Proof.
  induction d as [|[k v] d IH]; intros H; [now exists []|].
  cbn [teardown_events]. rewrite closed_app, shutdown_events_closed.
  - destruct (stalls (k, v)).
    + exists (pids d). reflexivity.
    + destruct IH as (rest & E).
      * intros k' v' Hin. apply (H k' v'). now right.
      * exists rest. unfold pids in *. cbn [map app snd]. now rewrite E.
  - apply (H k v). now left.
Qed.

Lemma teardown_pid (d : Dict.t server) e p :
  In e (teardown_events d) -> event_pid e = Some p ->
  In p (pids d).
Proof.
  induction d as [|[k v] d IH]; cbn [teardown_events map]; [intros []|].
  intros H E. apply in_app_or in H. destruct H as [H|H].
  - left. symmetry. exact (shutdown_events_pid _ _ _ _ H E).
  - right. destruct (stalls (k, v)); [contradiction|]. now apply IH.
Qed.

Lemma in_registered name sv s :
  Dict.get name (servers s) = Some sv -> In (pid (process_ sv)) (registered s).
Proof.
  intros H. apply DictFacts.get_in in H.
  apply (in_map (fun kv : string * server => pid (process_ (snd kv)))) in H.
  exact H.
Qed.

(** What one call does to the registry and to the environment. *)
Lemma exec_registry c s :
  processes_distinct s ->
  processes_distinct (exec c s) /\
  (spawned s <= spawned (exec c s))%nat /\
  (forall p, In p (registered (exec c s)) ->
     In p (registered s) \/ (spawned s <= p)%nat) /\
  exists evs,
    log (exec c s) = (log s ++ evs)%list /\ about_registered s evs.
Proof.
  intros [Hn Hlt].
  assert (Same : forall s', s' = s ->
    processes_distinct s' /\ (spawned s <= spawned s')%nat /\
    (forall p, In p (registered s') ->
       In p (registered s) \/ (spawned s <= p)%nat) /\
    exists evs, log s' = (log s ++ evs)%list /\ about_registered s evs).
  { intros s' ->. split; [now split|]. split; [lia|]. split; [auto|].
    exists []. split; [now rewrite List.app_nil_r|constructor]. }
  destruct c as [name cmd config [b|e0|]|sn tn a| |n|n].
  - unfold exec.
    destruct (connect_server name cmd config (Ok b) s) as [r s'] eqn:E.
    cbn [snd].
    destruct (ConnectFacts.connect_effect _ _ _ _ _ _ _ E)
      as (sv' & evs & Hs & Hh & Hsp & Hl & Hev & _).
    assert (Hp : pid (process_ sv') = spawned s).
    { destruct Hh as (Hp & _). now rewrite <- Hp. }
    assert (Hfresh : ~ In (pid (process_ sv')) (registered s)).
    { rewrite Hp. intros H. rewrite Forall_forall in Hlt.
      specialize (Hlt _ H). lia. }
    split; [split|split; [|split]].
    + unfold registered. rewrite Hs.
      now apply RegistryFacts.registered_set_nodup.
    + unfold registered. rewrite Hs, Hsp. apply Forall_forall.
      intros p H. apply RegistryFacts.registered_set_in in H.
      destruct H as [->|H]; [lia|].
      rewrite Forall_forall in Hlt. specialize (Hlt _ H). lia.
    + lia.
    + intros p H. unfold registered in H. rewrite Hs in H.
      apply RegistryFacts.registered_set_in in H.
      destruct H as [->|H]; [right; lia|now left].
    + eexists. split; [exact Hl|].
      unfold about_registered.
      constructor.
      * intros p Ep. cbn in Ep. injection Ep as <-. right. lia.
      * destruct Hev as [(-> & _)|(-> & _)];
          repeat (apply Forall_cons;
                  [intros p Ep; cbn in Ep; injection Ep as <-; right; lia|]);
          apply Forall_nil.
  - apply Same. unfold exec. now rewrite ConnectFacts.connect_refused.
  - apply Same. reflexivity.
  - unfold exec.
    destruct (call_tool sn tn a s) as [r s'] eqn:E. cbn [snd].
    destruct (CallFacts.call_tool_effect _ _ _ _ _ _ E)
      as [(-> & _)|(sv & sv' & G & T & _ & _)]; [now apply Same|].
    destruct T as [Hs (Hp & _) Hsp Hl].
    assert (Hreg : registered s' = registered s).
    { unfold registered. rewrite Hs.
      apply (RegistryFacts.registered_set_same sn sv sv' _ G).
      now rewrite Hp. }
    split; [split|split; [|split]].
    + now rewrite Hreg.
    + now rewrite Hreg, Hsp.
    + lia.
    + intros p H. rewrite Hreg in H. now left.
    + eexists. split; [exact Hl|]. apply Forall_cons; [|apply Forall_nil].
      intros p Ep. cbn in Ep. injection Ep as <-. left.
      now apply (in_registered sn).
  - unfold exec.
    assert (Hev : exists evs,
      log (snd (disconnect_all s)) = (log s ++ evs)%list /\
      about_registered s evs).
    { eexists. split; [apply DisconnectFacts.disconnect_all_log|].
      apply Forall_forall. intros e He p Ep. left.
      exact (RegistryFacts.teardown_pid _ _ _ He Ep). }
    rewrite DisconnectFacts.disconnect_all_effect in *.
    destruct (existsb stalls (servers s)); cbn [snd] in *.
    + split; [now split|]. split; [cbn; lia|]. split; [auto|exact Hev].
    + split; [split; constructor|]. split; [cbn; lia|].
      split; [intros p []|exact Hev].
  - apply Same. apply RunFacts.exec_get_available_tools.
  - apply Same. apply RunFacts.exec_is_connected.
Qed.

Lemma reachable_distinct cs : processes_distinct (run cs __init__).
Proof.
  apply RunFacts.run_invariant.
  - split; constructor.
  - intros c s H. apply (exec_registry c s H).
Qed.

(** A process that has left the registry is out of reach for good. *)
Lemma run_out_of_reach cs s q :
  processes_distinct s -> (q < spawned s)%nat -> ~ In q (registered s) ->
  exists evs,
    log (run cs s) = (log s ++ evs)%list /\
    Forall (fun e => event_pid e <> Some q) evs.
Proof.
  revert s. induction cs as [|c cs IH]; intros s Hd Hq Hnot.
  - exists []. split; [now rewrite List.app_nil_r|constructor].
  - change (run (c :: cs) s) with (run cs (exec c s)).
    destruct (exec_registry c s Hd) as (Hd' & Hsp & Hreg & evs & Hl & Hab).
    destruct (IH (exec c s) Hd') as (evs' & Hl' & Hf').
    + lia.
    + intros H. destruct (Hreg _ H) as [H'|H']; [now apply Hnot|lia].
    + exists (evs ++ evs')%list. split.
      * now rewrite Hl', Hl, List.app_assoc.
      * apply Forall_app. split; [|exact Hf'].
        unfold about_registered in Hab. rewrite Forall_forall in *.
        intros e He Ep. destruct (Hab e He q Ep) as [H|H];
          [now apply Hnot|lia].
Qed.

End RegistryFacts.

(** ** The list of servers and the gathering of context *)

Module ConfigFacts.
Import Config.

Lemma filter_objects entries :
  forallb is_object entries = true ->
  filter_res enabled entries = Ok (filter kept entries).
Proof.
  induction entries as [|x entries IH]; [reflexivity|].
  cbn [forallb]. intros H. apply andb_prop in H. destruct H as [Hx H].
  destruct x; try discriminate Hx.
  cbn [filter_res enabled Py.get kept]. rewrite (IH H). reflexivity.
Qed.

Lemma filter_not_object entries :
  forallb is_object entries = false ->
  exists msg, filter_res enabled entries = Raise (Exc AttributeError msg).
Proof.
  induction entries as [|x entries IH]; [discriminate|].
  cbn [forallb]. intros H.
  destruct x; try (eexists; reflexivity).
  cbn [is_object andb] in H. destruct (IH H) as (msg & E).
  exists msg. cbn [filter_res enabled Py.get]. now rewrite E.
Qed.

End ConfigFacts.

Module ResearchFacts.
Import MCPClient ResearchAgent.

Lemma mem_set {V} k k' (v : V) (d : Dict.t V) :
  Dict.mem k (Dict.set k' v d) = String.eqb k k' || Dict.mem k d.
Proof.
  unfold Dict.mem. destruct (String.eqb k k') eqn:E.
  - apply String.eqb_eq in E. subst. now rewrite DictFacts.get_set_same.
  - apply String.eqb_neq in E. now rewrite DictFacts.get_set_other.
Qed.




Lemma connect_all_app i pre rest os s :
  connect_all i (pre ++ rest) os s =
    match connect_all i pre os s with
    | (Ok _, s1) => connect_all (i + Datatypes.length pre) rest os s1
    | (Raise e, s1) => (Raise e, s1)
    | (Blocked, s1) => (Blocked, s1)
    end.
Proof.
  revert i s. induction pre as [|sc pre IH]; intros i s.
  - cbn. now rewrite Nat.add_0_r.
  - cbn [app connect_all Datatypes.length]. unfold bind.
    destruct (connect_server _ _ _ (os i) s) as [[u|e|] s1];
      [|reflexivity|reflexivity].
    rewrite IH. now rewrite Nat.add_succ_r.
Qed.

(** A connect attempt takes no name out of the registry, and a
    successful one has its name in it. *)
Lemma connect_keeps_names name cmd config os s r s' :
  connect_server name cmd config os s = (r, s') ->
  (forall k, Dict.mem k (servers s) = true -> Dict.mem k (servers s') = true) /\
  (spawned s' <= S (spawned s))%nat /\
  (forall u, r = Ok u -> Dict.mem name (servers s') = true).
Proof.
  destruct os as [b|e0|].
  - intros E.
    destruct (ConnectFacts.connect_effect _ _ _ _ _ _ _ E)
      as (sv' & evs & Hs & _ & Hsp & _).
    rewrite Hs. split; [|split].
    + intros k H. rewrite mem_set, H. apply orb_true_r.
    + lia.
    + intros _ _. rewrite mem_set, String.eqb_refl. reflexivity.
  - rewrite ConnectFacts.connect_refused. intros [= <- <-].
    split; [auto|]. split; [lia|]. discriminate.
  - rewrite ConnectFacts.connect_blocked. intros [= <- <-].
    split; [auto|]. split; [lia|]. discriminate.
Qed.

Lemma connect_all_registers i pre os s sp :
  connect_all i pre os s = (Ok tt, sp) ->
  (forall k, Dict.mem k (servers s) = true -> Dict.mem k (servers sp) = true) /\
  (spawned sp <= spawned s + Datatypes.length pre)%nat /\
  forall c, In c pre -> Dict.mem (cfg_name c) (servers sp) = true.
Proof.
  revert i s. induction pre as [|sc pre IH]; intros i s.
  - intros [= <-]. split; [auto|]. split; [cbn; lia|]. intros c [].
  - cbn [connect_all]. unfold bind.
    destruct (connect_server _ _ _ (os i) s) as [[u|e|] s1] eqn:E;
      [|discriminate|discriminate].
    intros H. destruct (IH _ _ H) as (K & N & R).
    destruct (connect_keeps_names _ _ _ _ _ _ _ E) as (K1 & N1 & R1).
    split; [auto|]. split; [cbn [Datatypes.length]; lia|].
    intros c [<-|Hc]; [|now apply R].
    apply K. now apply (R1 u).
Qed.

End ResearchFacts.

(** * The claims *)

Import MCPClient.

(** ** Connecting *)

(** C1, as stated, fails: the connect attempt to a peer that answers
    [initialize] with a line that is not JSON raises, and the registry,
    empty before, holds the entry afterwards. *)
Lemma failed_handshake_leaves_registry_counterexample :
  ~ failed_handshake_leaves_registry.
Proof.
  intros H.
  specialize (H "cal" "npx" [] garbled __init__).
  destruct (connect_server "cal" "npx" [] (Ok garbled) __init__) as [r s'] eqn:E.
  vm_compute in E. inversion E; subst.
  specialize (H _ _ eq_refl). discriminate H.
Qed.

(** C1, amended: a connect attempt that fails propagates the error to the
    caller, as an exception whose text starts with "Failed to connect to MCP
    server '<name>': ".  If the process could not be started the registry is
    as it was.  If the handshake failed, every entry under another name is as
    it was, and the failed name holds the entry of the process just started
    (its command and arguments, a process not known to have exited) with an
    empty tool list, in place of any entry it held before. *)
Theorem failed_connect_registry :
  forall name cmd config os s e s',
    connect_server name cmd config os s = (Raise e, s') ->
    (exists msg, e = exception
       ("Failed to connect to MCP server '" ++ name ++ "': " ++ msg)) /\
    (forall k, k <> name -> Dict.get k (servers s') = Dict.get k (servers s)) /\
    match os with
    | Raise _ => servers s' = servers s
    | Blocked => servers s' = servers s
    | Ok b =>
        exists sv,
          Dict.get name (servers s') = Some sv /\
          pid (process_ sv) = spawned s /\
          returncode (process_ sv) = None /\
          command sv = cmd /\
          args sv = Dict.get_or "args" config (JList []) /\
          available_tools sv = JList []
    end.
Proof.
  intros name cmd config [b|e0|] s e s' H.
  - destruct (ConnectFacts.connect_effect _ _ _ _ _ _ _ H)
      as (sv & evs & S1 & SH & _ & _ & C & Msg).
    split; [exact (Msg e eq_refl)|]. split.
    + intros k Hk. rewrite S1. now apply DictFacts.get_set_other.
    + exists sv. split; [rewrite S1; apply DictFacts.get_set_same|].
      destruct SH as (Hp & _ & Hr & Hc & Ha).
      cbn in Hp, Hr, Hc, Ha.
      repeat (split; [congruence|]).
      destruct C as [(_ & _ & A & _)|(_ & _ & A)]; exact A.
  - rewrite ConnectFacts.connect_refused in H. inversion H; subst.
    split; [now exists (exn_str e0)|]. split; [reflexivity|reflexivity].
  - rewrite ConnectFacts.connect_blocked in H. discriminate H.
Qed.

Lemma failed_connect_registry_witness :
  connect_server "cal" "npx" [] (Ok garbled) __init__ =
    (Raise (exception
       "Failed to connect to MCP server 'cal': Failed to initialize server 'cal': Invalid JSON response from server: Expecting value: line 1 column 1 (char 0)"),
     connected "cal" garbled __init__) /\
  exists sv,
    Dict.get "cal" (servers (connected "cal" garbled __init__)) = Some sv /\
    available_tools sv = JList [].
Proof.
  assert (E : connect_server "cal" "npx" [] (Ok garbled) __init__ =
    (Raise (exception
       "Failed to connect to MCP server 'cal': Failed to initialize server 'cal': Invalid JSON response from server: Expecting value: line 1 column 1 (char 0)"),
     connected "cal" garbled __init__)) by (vm_compute; reflexivity).
  split; [exact E|].
  destruct (failed_connect_registry _ _ _ _ _ _ _ E)
    as (_ & _ & sv & G & _ & _ & _ & _ & A).
  exists sv. split; [exact G|exact A].
Defined.

(** ** Teardown *)




(** C7: for every entry of the registry of a client, the teardown pass,
    when it gets to the entry (no entry before it stalls), does the steps
    of that entry in a row, and they are: close the standard input; then,
    unless closing raised, wait for the exit under a timeout of 2 seconds;
    then, only if that wait timed out, send the termination signal and,
    unless sending raised, wait for the exit without a timeout.  A process
    whose exit the wait sees within the window is never sent the signal. *)
Theorem graceful_then_forced :
  forall cs name sv,
    In (name, sv) (servers (run cs __init__)) ->
    let p := pid (process_ sv) in
    let b := behaviour (process_ sv) in
    let steps := shutdown_events (name, sv) in
    (forall l1 l2,
       servers (run cs __init__) = (l1 ++ (name, sv) :: l2)%list ->
       existsb stalls l1 = false ->
       exists before after,
         log (snd (disconnect_all (run cs __init__))) =
           (before ++ steps ++ after)%list) /\
    (exists rest, steps = CloseStdin p :: rest) /\
    (close_fault b = None ->
     exists rest, steps = CloseStdin p :: WaitFor p 2 :: rest) /\
    (close_fault b = None -> graceful b = TimesOut ->
     exists rest,
       steps = CloseStdin p :: WaitFor p 2 :: Terminate p :: rest /\
       (terminate_fault b = None -> exists rest', rest = Wait p :: rest')) /\
    (In (Terminate p) steps -> close_fault b = None /\ graceful b = TimesOut) /\
    (forall rc, graceful b = Exits rc -> ~ In (Terminate p) steps).
Proof.
  intros cs name sv Hin p b steps.
  pose proof (RunFacts.reachable_pipes_open cs _ _ Hin) as Hpipe.
  split.
  { intros l1 l2 E Hl1.
    rewrite DisconnectFacts.disconnect_all_log, E.
    rewrite (DisconnectFacts.teardown_events_app _ _ Hl1).
    cbn [teardown_events].
    exists (log (run cs __init__) ++ flat_map shutdown_events l1)%list.
    eexists. rewrite <- !List.app_assoc. reflexivity. }
  subst p b steps.
  destruct sv as [[p i rc [ws ls cf g tf ff]] c a t].
  cbn [process_ stdin] in Hpipe. subst i.
  cbn [process_ pid behaviour close_fault graceful terminate_fault].
  rewrite DisconnectFacts.shutdown_events_form.
  split; [eauto|].
  split; [intros ->; eauto|].
  split; [intros -> ->; eexists; split; [reflexivity|intros ->; eauto]|].
  split.
  - destruct cf as [cm|], g as [rc'| |wm]; cbn; intros H;
      repeat (destruct H as [H|H]; try discriminate H);
      try (now destruct H); auto.
  - intros rc0 ->. destruct cf as [cm|]; cbn; intros H;
      repeat (destruct H as [H|H]; try discriminate H); now destruct H.
Qed.

Lemma graceful_then_forced_witness :
  let sv := Server (Process 0 true None
              (Peer [] [reply 3 (JDict [("contacts", JList [])]);
                        error_reply 4 (-32601) "no such tool"]
                    None TimesOut None (Exits (-15))))
              "npx" (JList []) calendar_tools in
  In ("cal", sv)
     (servers (run [ConnectServer "cal" "npx" [] (Ok calendar)] __init__)) /\
  exists rest,
    shutdown_events ("cal", sv) =
      CloseStdin 0 :: WaitFor 0 2 :: Terminate 0 :: rest /\
    exists rest', rest = Wait 0 :: rest'.
Proof.
  intros sv.
  assert (Hin : In ("cal", sv)
     (servers (run [ConnectServer "cal" "npx" [] (Ok calendar)] __init__)))
    by (vm_compute; left; reflexivity).
  split; [exact Hin|].
  destruct (graceful_then_forced _ _ _ Hin) as (_ & _ & _ & H & _).
  destruct (H eq_refl eq_refl) as (rest & E & W).
  exists rest. split; [exact E|exact (W eq_refl)].
Defined.

(** ** Request ids *)




(** C9: the counter belongs to the client.  After any calls, the ids of the
    requests written, to all processes together and in order, are 1, 2, ...
    up to the counter, hence without duplicates across servers; and once a
    server has been connected, the [initialize] request of any server
    connected later carries an id above 1. *)
Theorem request_ids_shared_counter :
  forall cs,
    let s := run cs __init__ in
    request_ids (log s) = ids_upto (request_id s) /\
    NoDup (request_ids (log s)) /\
    forall name cmd config b cs' name' cmd' config' b',
      let s1 := run (cs ++ ConnectServer name cmd config (Ok b) :: cs') __init__ in
      exists i rest,
        log (exec (ConnectServer name' cmd' config' (Ok b')) s1) =
          (log s1 ++ spawn_event cmd' config' s1
                  :: Write (spawned s1) (request i "initialize" init_params)
                  :: rest)%list /\
        1 < i.
Proof.
  intros cs s. destruct (RunFacts.reachable_ids_in_order cs) as [Hn Hr].
  fold s in Hn, Hr.
  assert (E : request_ids (log s) = ids_upto (request_id s)).
  { rewrite (RunFacts.numbered_request_ids _ _ Hn), Hr.
    unfold ids_upto. rewrite Nat2Z.id. apply map_ext. intros i. lia. }
  split; [exact E|]. split.
  { rewrite E. unfold ids_upto. apply Injective_map_NoDup.
    - intros x y. apply Nat2Z.inj.
    - apply seq_NoDup. }
  intros name cmd config b cs' name' cmd' config' b' s1.
  assert (Hpos : 1 <= request_id s1).
  { subst s1. rewrite RunFacts.run_app.
    change (run (ConnectServer name cmd config (Ok b) :: cs') (run cs __init__))
      with (run cs' (exec (ConnectServer name cmd config (Ok b)) s)).
    pose proof (RunFacts.run_counter_grows cs'
                  (exec (ConnectServer name cmd config (Ok b)) s)).
    pose proof (RunFacts.connect_takes_an_id name cmd config b s). lia. }
  unfold exec.
  destruct (connect_server name' cmd' config' (Ok b') s1) as [r s'] eqn:C.
  destruct (ConnectFacts.connect_effect _ _ _ _ _ _ _ C)
    as (sv' & evs & _ & _ & _ & L & D & _).
  cbn [snd]. exists (request_id s1 + 1).
  destruct D as [(-> & _)|(-> & _)]; eexists; (split; [exact L|lia]).
Qed.

Lemma request_ids_shared_counter_witness :
  request_ids (log (run two_connects __init__)) =
    ids_upto (request_id (run two_connects __init__)) /\
  ids_upto (request_id (run two_connects __init__)) = [1; 2; 3; 4] /\
  NoDup (request_ids (log (run two_connects __init__))).
Proof.
  destruct (request_ids_shared_counter two_connects) as (E & N & _).
  split; [exact E|]. split; [vm_compute; reflexivity|exact N].
Defined.

(** ** Tool calls *)

(** C10: a call that fails because the server name is not in the registry,
    or because the tool is not in the list of the server, leaves the whole
    state as it was: the counter of request ids is unchanged and nothing was
    written to any process. *)
Theorem failed_lookup_changes_nothing :
  forall sn tn a s,
    (Dict.get sn (servers s) = None \/
     exists sv names,
       Dict.get sn (servers s) = Some sv /\
       tool_names sv = Ok names /\
       existsb (Py.is_str tn) names = false) ->
    exists e s',
      call_tool sn tn a s = (Raise e, s') /\
      s' = s /\ request_id s' = request_id s /\ log s' = log s.
Proof.
  intros sn tn a s [G|(sv & names & G & N & E)].
  - rewrite (CallFacts.call_unknown_server _ _ _ _ G). eauto 6.
  - rewrite (CallFacts.call_unlisted_tool _ _ _ _ _ _ G N E). eauto 6.
Qed.

Lemma failed_lookup_changes_nothing_witness :
  Dict.get "slack" (servers cal_state) = None /\
  exists e,
    call_tool "slack" "get_recent_messages" (JDict [("hours", JInt 24)])
      cal_state = (Raise e, cal_state).
Proof.
  assert (G : Dict.get "slack" (servers cal_state) = None)
    by (vm_compute; reflexivity).
  split; [exact G|].
  destruct (failed_lookup_changes_nothing "slack" "get_recent_messages"
              (JDict [("hours", JInt 24)]) cal_state (or_introl G))
    as (e & s' & C & -> & _).
  exists e. exact C.
Defined.

(** C4, as stated, fails: on a server whose only tool is named [a\b] the
    message of the error for the unlisted tool [x] spells that name with
    the backslash doubled, and the name itself does not occur in it. *)
Lemma unavailable_message_has_names_counterexample :
  ~ unavailable_message_has_names.
Proof.
  intros H.
  assert (G : Dict.get "s" (servers backslash_state) =
              Some (Server (Process 0 true None
                              (Peer [] [] None (Exits 0) None (Exits 0)))
                           "npx" (JList [])
                           (JList [JDict [("name", JStr "a\b")]])))
    by (vm_compute; reflexivity).
  destruct (H "s" "x" (JDict []) backslash_state _ [JStr "a\b"] G
              eq_refl eq_refl) as (msg & E & F).
  assert (E' : fst (call_tool "s" "x" (JDict []) backslash_state) =
               Raise (exception
                 "Tool 'x' not available on server 's'. Available tools: ['a\\b']"))
    by (vm_compute; reflexivity).
  rewrite E' in E. inversion E; subst msg.
  specialize (F "a\b" (or_introl eq_refl)).
  vm_compute in F. discriminate F.
Qed.

(** C4, amended: on a server of the registry whose tool list is a list of
    objects, a call for a tool whose name no object of the list has fails
    at once, the state unchanged, with the message "Tool '<tool>' not
    available on server '<server>'. Available tools: <list>", where <list>
    is Python's [repr] of the list of names.  Every listed name occurs in
    the message as its [repr], and as itself when [repr] escapes none of its
    characters (no backslash, no quote of the kind that encloses it, no
    character that is not printable). *)
Theorem unavailable_message :
  forall sn tn a s sv names,
    Dict.get sn (servers s) = Some sv ->
    tool_names sv = Ok names ->
    existsb (Py.is_str tn) names = false ->
    call_tool sn tn a s = (Raise (exception (unavailable sn tn names)), s) /\
    forall n,
      In (JStr n) names ->
      PyStr.contains (PyStr.repr n) (unavailable sn tn names) = true /\
      (verbatim n = true ->
       PyStr.contains n (unavailable sn tn names) = true).
Proof.
  intros sn tn a s sv names G N E.
  split; [exact (CallFacts.call_unlisted_tool _ _ _ _ _ _ G N E)|].
  intros n Hin.
  destruct (CallFacts.unavailable_shape sn tn names n Hin) as (u & v & Shape).
  rewrite Shape. split.
  - apply PyStrFacts.contains_app.
  - intros V. apply PyStrFacts.contains_mid.
    now apply PyStrFacts.contains_repr_verbatim.
Qed.

Lemma unavailable_message_witness :
  call_tool "cal" "get_mail" (JDict []) cal_state =
    (Raise (exception
       "Tool 'get_mail' not available on server 'cal'. Available tools: ['get_events', 'get_contacts']"),
     cal_state) /\
  PyStr.contains "get_contacts"
    (unavailable "cal" "get_mail"
       [JStr "get_events"; JStr "get_contacts"]) = true.
Proof.
  assert (G : Dict.get "cal" (servers cal_state) =
              Some (Server (Process 0 true None
                (Peer [] [reply 3 (JDict [("contacts", JList [])]);
                          error_reply 4 (-32601) "no such tool"]
                      None TimesOut None (Exits (-15))))
                "npx" (JList []) calendar_tools))
    by (vm_compute; reflexivity).
  destruct (unavailable_message "cal" "get_mail" (JDict []) cal_state _
              [JStr "get_events"; JStr "get_contacts"] G eq_refl eq_refl)
    as (C & F).
  split; [exact C|].
  destruct (F "get_contacts" (or_intror (or_introl eq_refl))) as (_ & V).
  apply V. vm_compute. reflexivity.
Defined.

(** C5: a call for a listed tool sends one [tools/call] request, and when
    an object comes back the outcome follows the object: with a "result"
    field the call returns its value; without it and with an "error" field
    the call raises "Failed to call tool '<tool>' on server '<server>': ..."
    whose text ends with "Tool call error: " and the message of the error
    when the error is an object with a string message; with neither field
    the call returns the object as it came. *)
Theorem call_tool_outcome :
  forall sn tn a s sv names fields s2,
    Dict.get sn (servers s) = Some sv ->
    tool_names sv = Ok names ->
    existsb (Py.is_str tn) names = true ->
    _send_request sn (call_request (request_id s) tn a)
      (snd (_next_request_id s)) = (Ok (JDict fields), s2) ->
    (forall result,
       Dict.get "result" fields = Some result ->
       call_tool sn tn a s = (Ok result, s2)) /\
    (forall error,
       Dict.get "result" fields = None ->
       Dict.get "error" fields = Some error ->
       exists msg,
         call_tool sn tn a s =
           (Raise (exception ("Failed to call tool '" ++ tn ++ "' on server '"
                              ++ sn ++ "': " ++ msg)), s2) /\
         forall efs m,
           error = JDict efs -> Dict.get "message" efs = Some (JStr m) ->
           msg = "Tool call error: " ++ m) /\
    (Dict.get "result" fields = None ->
     Dict.get "error" fields = None ->
     call_tool sn tn a s = (Ok (JDict fields), s2)).
Proof.
  intros sn tn a s sv names fields s2 G N E Hsend.
  rewrite (CallFacts.call_listed_tool _ _ _ _ _ _ G N E).
  assert (Run : forall r,
    tool_result (JDict fields) s2 = (r, s2) ->
    try_except
      (id <- _next_request_id ;;
       response <- _send_request sn
         (request id "tools/call"
            (JDict [("name", JStr tn); ("arguments", a)])) ;;
       tool_result response)%py
      (fun e => raise (exception
         ("Failed to call tool '" ++ tn ++ "' on server '" ++ sn ++ "': "
          ++ exn_str e))) s =
    match r with
    | Ok v => (Ok v, s2)
    | Raise e => (Raise (exception
         ("Failed to call tool '" ++ tn ++ "' on server '" ++ sn ++ "': "
          ++ exn_str e)), s2)
    | Blocked => (Blocked, s2)
    end).
  { intros r Hr. unfold try_except. unfold bind at 1.
    rewrite HandshakeFacts.next_request_id_effect.
    unfold bind.
    change (_send_request sn
              (request (request_id s + 1) "tools/call"
                 (JDict [("name", JStr tn); ("arguments", a)]))
              (State (servers s) (request_id s + 1) (spawned s) (log s)))
      with (_send_request sn (call_request (request_id s) tn a)
              (snd (_next_request_id s))).
    rewrite Hsend, Hr. now destruct r. }
  split; [|split].
  - intros result Hres. rewrite (Run (Ok result)); [reflexivity|].
    unfold tool_result, bind, lift. cbn [Py.contains Py.getitem].
    unfold Dict.mem. now rewrite Hres.
  - intros error Hres Herr.
    destruct (Py.get error "message" (JStr "Unknown error")) as [m|e|] eqn:Hm;
      [| |destruct error; discriminate Hm].
    + exists ("Tool call error: " ++ Py.str m). split.
      * rewrite (Run (Raise (exception ("Tool call error: " ++ Py.str m))));
          [reflexivity|].
        unfold tool_result, bind, lift, raise. cbn [Py.contains Py.getitem].
        unfold Dict.mem. now rewrite Hres, Herr, Hm.
      * intros efs m' -> Hget. cbn in Hm. unfold Dict.get_or in Hm.
        rewrite Hget in Hm. now inversion Hm.
    + exists (exn_str e). split.
      * rewrite (Run (Raise e)); [reflexivity|].
        unfold tool_result, bind, lift, raise. cbn [Py.contains Py.getitem].
        unfold Dict.mem. now rewrite Hres, Herr, Hm.
      * intros efs m' -> Hget. discriminate Hm.
  - intros Hres Herr. rewrite (Run (Ok (JDict fields))); [reflexivity|].
    unfold tool_result, bind, lift, ret. cbn [Py.contains Py.getitem].
    unfold Dict.mem. now rewrite Hres, Herr.
Qed.

Lemma call_tool_outcome_witness :
  call_tool "cal" "get_contacts" (JDict []) cal_state =
    (Ok (JDict [("contacts", JList [])]),
     exec (CallTool "cal" "get_contacts" (JDict [])) cal_state).
Proof.
  assert (G : Dict.get "cal" (servers cal_state) =
              Some (Server (Process 0 true None
                (Peer [] [reply 3 (JDict [("contacts", JList [])]);
                          error_reply 4 (-32601) "no such tool"]
                      None TimesOut None (Exits (-15))))
                "npx" (JList []) calendar_tools))
    by (vm_compute; reflexivity).
  assert (S : _send_request "cal"
                (call_request (request_id cal_state) "get_contacts" (JDict []))
                (snd (_next_request_id cal_state)) =
              (Ok (JDict [("jsonrpc", JStr "2.0"); ("id", JInt 3);
                          ("result", JDict [("contacts", JList [])])]),
               exec (CallTool "cal" "get_contacts" (JDict [])) cal_state))
    by (vm_compute; reflexivity).
  destruct (call_tool_outcome "cal" "get_contacts" (JDict []) cal_state _
              [JStr "get_events"; JStr "get_contacts"] _ _ G eq_refl eq_refl S)
    as (R & _ & _).
  exact (R _ eq_refl).
Defined.

(** ** Handshake and readiness *)

(** C6: the source departs from the claim when the answer to [tools/list]
    has a "result" that is null: the membership test on it raises, and the
    connect attempt fails, instead of succeeding with an empty tool list. *)
Lemma null_result_fails_handshake :
  exists s',
    connect_server "cal" "npx" [] (Ok null_result) __init__ =
      (Raise (exception
         "Failed to connect to MCP server 'cal': Failed to initialize server 'cal': argument of type 'NoneType' is not iterable"),
       s') /\
    fst (get_available_tools "cal" s') = Ok (JList []).
Proof. eexists. split; vm_compute; reflexivity. Qed.

(** C8, as stated, fails: after a connect attempt whose handshake failed,
    while the process keeps running, [is_connected] holds of the name
    although the Connection is not Ready. *)
Lemma connected_means_ready_counterexample : ~ connected_means_ready.
Proof.
  intros H.
  assert (C : connect_server "cal" "npx" [] (Ok garbled) __init__ =
              (Raise (exception
                 "Failed to connect to MCP server 'cal': Failed to initialize server 'cal': Invalid JSON response from server: Expecting value: line 1 column 1 (char 0)"),
               failed_state)) by (vm_compute; reflexivity).
  assert (I : fst (is_connected "cal" failed_state) = Ok true)
    by (vm_compute; reflexivity).
  specialize (H _ _ _ _ _ _ _ C I). discriminate H.
Qed.

(** C8, amended: [is_connected] changes nothing and returns false when the
    name is not in the registry; otherwise it returns true if and only if
    the process of the entry has no return code yet, that is, has not been
    seen to exit.  No status of the connection enters into it. *)
Theorem is_connected_iff_running :
  forall name s,
    exists b,
      is_connected name s = (Ok b, s) /\
      (Dict.get name (servers s) = None -> b = false) /\
      (b = true <->
       exists sv, Dict.get name (servers s) = Some sv /\
                  returncode (process_ sv) = None).
Proof.
  intros name s. unfold is_connected, servers_get, bind, gets, ret.
  destruct (Dict.get name (servers s)) as [sv|].
  - destruct (returncode (process_ sv)) as [rc|] eqn:R; eexists;
      (split; [reflexivity|]); (split; [discriminate|]); split.
    + discriminate.
    + intros (sv' & [= <-] & R'). congruence.
    + eauto.
    + reflexivity.
  - exists false. split; [reflexivity|]. split; [reflexivity|]. split.
    + discriminate.
    + intros (sv & G & _). discriminate G.
Qed.

Lemma is_connected_iff_running_witness :
  is_connected "cal" failed_state = (Ok true, failed_state) /\
  is_connected "mail" failed_state = (Ok false, failed_state).
Proof.
  destruct (is_connected_iff_running "cal" failed_state) as (b1 & E1 & _ & I1).
  destruct (is_connected_iff_running "mail" failed_state) as (b2 & E2 & N2 & _).
  assert (B1 : b1 = true).
  { apply I1. eexists. split; vm_compute; reflexivity. }
  assert (B2 : b2 = false) by (apply N2; vm_compute; reflexivity).
  rewrite B1 in E1. rewrite B2 in E2. split; [exact E1|exact E2].
Defined.

(** * Further properties of the client *)

(** ** Requests and answers *)

(** X1: [_send_request] on a registered server, for a request that is a
    JSON value, writes the request, once, to the process of the entry and
    takes the next unread line of its output for the answer, whatever id
    the line carries: the value of the line is returned; an error of the
    write, the end of the output ("Server closed connection"), a line
    longer than the limit of the stream and a line that is not UTF-8 raise
    "Communication error with server: ...", a line that is not JSON raises
    "Invalid JSON response from server: ..."; while the process neither
    writes a line nor closes its output the call does not return.  The
    counter and the tool list are not touched. *)
Theorem send_request_pairs_by_order name req s sv :
  Dict.get name (servers s) = Some sv ->
  let b := behaviour (process_ sv) in
  let s' := snd (_send_request name req s) in
  fst (_send_request name req s) = answer b /\
  log s' = (log s ++ [Write (pid (process_ sv)) req])%list /\
  request_id s' = request_id s /\
  exists sv',
    Dict.get name (servers s') = Some sv' /\
    behaviour (process_ sv') = after_request b /\
    available_tools sv' = available_tools sv.
Proof.
  intros Hget b s'.
  destruct (AnswerFacts.send_request_answer name req s sv Hget)
    as (sv' & s1 & E & T & A & R & B).
  subst s'. rewrite E. cbn [fst snd].
  split; [reflexivity|]. split; [apply T|]. split; [exact R|].
  exists sv'. split; [exact (touched_get _ _ _ _ _ _ T)|]. now split.
Qed.

Lemma send_request_pairs_by_order_witness :
  fst (_send_request "cal" (request 7 "ping" (JDict [])) cal_state) =
    Ok (JDict [("jsonrpc", JStr "2.0"); ("id", JInt 3);
               ("result", JDict [("contacts", JList [])])]).
Proof.
  assert (G : Dict.get "cal" (servers cal_state) =
              Some (Server (Process 0 true None
                (Peer [] [reply 3 (JDict [("contacts", JList [])]);
                          error_reply 4 (-32601) "no such tool"]
                      None TimesOut None (Exits (-15))))
                "npx" (JList []) calendar_tools))
    by (vm_compute; reflexivity).
  destruct (send_request_pairs_by_order "cal" (request 7 "ping" (JDict []))
              cal_state _ G) as (R & _).
  rewrite R. reflexivity.
Defined.

(** X2: when the answer of the new process to [initialize], or else to
    [tools/list], fails with the text [m], [connect_server] raises
    "Failed to connect to MCP server '<name>': Failed to initialize server
    '<name>': m"; after a failed [initialize] no [tools/list] is sent and
    one request id is used, after a failed [tools/list] two. *)
Theorem connect_fails_on_bad_answer name cmd config b s e :
  let p := spawned s in
  let n := request_id s in
  let r := fst (connect_server name cmd config (Ok b) s) in
  let s' := snd (connect_server name cmd config (Ok b) s) in
  let failure :=
    Raise (exception
      ("Failed to connect to MCP server '" ++ name ++ "': "
       ++ "Failed to initialize server '" ++ name ++ "': " ++ exn_str e)) in
  (answer b = Raise e ->
   r = failure /\
   log s' = (log s ++ [spawn_event cmd config s;
                       Write p (init_request n)])%list /\
   request_id s' = n + 1) /\
  (forall v, answer b = Ok v -> answer (after_request b) = Raise e ->
   r = failure /\
   log s' = (log s ++ [spawn_event cmd config s;
                       Write p (init_request n);
                       Write p (tools_request n)])%list /\
   request_id s' = n + 2).
Proof.
  intros p n r s' failure. subst r s'.
  rewrite AnswerFacts.connect_outcome.
  destruct (AnswerFacts.initialize_outcome name (started name cmd config b s) _
              (AnswerFacts.started_get name cmd config b s))
    as (s1 & s2 & sv1 & sv2 & T1 & R1 & T2 & R2 & A1 & A2 & B2 & E).
  cbn [fresh_entry process_ behaviour pid] in E, T1, T2.
  unfold try_except. rewrite E. unfold raise.
  split.
  - intros Ha. rewrite Ha. cbn [fst snd]. split; [reflexivity|].
    split; [|exact R1].
    destruct T1 as [_ _ _ L]. rewrite L. cbn [started log].
    now rewrite <- List.app_assoc.
  - intros v Ha Hb. rewrite Ha, Hb. cbn [fst snd]. split; [reflexivity|].
    split; [|exact R2].
    destruct T2 as [_ _ _ L]. rewrite L. cbn [started log].
    now rewrite <- List.app_assoc.
Qed.

Lemma connect_fails_on_bad_answer_witness :
  fst (connect_server "cal" "npx" [] (Ok garbled) __init__) =
    Raise (exception
      ("Failed to connect to MCP server 'cal': "
       ++ "Failed to initialize server 'cal': "
       ++ "Invalid JSON response from server: "
       ++ "Expecting value: line 1 column 1 (char 0)")) /\
  request_id (snd (connect_server "cal" "npx" [] (Ok garbled) __init__)) = 1.
Proof.
  destruct (connect_fails_on_bad_answer "cal" "npx" [] garbled __init__
              (exception ("Invalid JSON response from server: "
                 ++ "Expecting value: line 1 column 1 (char 0)")))
    as [H _].
  destruct (H eq_refl) as (R & _ & C). split; [exact R|exact C].
Defined.

(** X3: when the new process answers both requests of the handshake with
    a line of JSON within the limit of the stream, and its answer to
    [tools/list] is an object whose result is an object, or that has no
    result, [connect_server] succeeds whatever the answer to [initialize]
    holds; [get_available_tools] then returns the value of [result.tools]
    as it came, or the empty list for want of it, and two request ids are
    used. *)
Theorem connect_keeps_listed_tools name cmd config b s v fields :
  answer b = Ok v ->
  answer (after_request b) = Ok (JDict fields) ->
  Dict.get "result" fields = None \/
  (exists result, Dict.get "result" fields = Some (JDict result)) ->
  exists s',
    connect_server name cmd config (Ok b) s = (Ok tt, s') /\
    get_available_tools name s' = (Ok (listed_tools fields), s') /\
    request_id s' = request_id s + 2.
Proof.
  intros Ha Hb Hres.
  rewrite AnswerFacts.connect_outcome.
  destruct (AnswerFacts.initialize_outcome name (started name cmd config b s) _
              (AnswerFacts.started_get name cmd config b s))
    as (s1 & s2 & sv1 & sv2 & T1 & R1 & T2 & R2 & A1 & A2 & B2 & E).
  cbn [fresh_entry process_ behaviour pid available_tools] in E, T2, A2.
  unfold try_except at 1. rewrite E, Ha, Hb.
  destruct (AnswerFacts.store_tools_object name fields s2 sv2
              (touched_get _ _ _ _ _ _ T2) Hres)
    as (s3 & sv3 & E3 & T3 & R3 & A3).
  unfold try_except. rewrite E3.
  exists s3. split; [reflexivity|].
  pose proof (touched_get _ _ _ _ _ _ T3) as G3.
  split.
  - unfold get_available_tools, servers_get, bind, gets, ret. rewrite G3.
    f_equal. f_equal. rewrite A3, A2. unfold listed_tools.
    destruct Hres as [H|(result & H)]; rewrite H; reflexivity.
  - rewrite R3, R2. reflexivity.
Qed.

Lemma connect_keeps_listed_tools_witness :
  exists s',
    connect_server "cal" "npx" [] (Ok calendar) __init__ = (Ok tt, s') /\
    get_available_tools "cal" s' = (Ok calendar_tools, s').
Proof.
  destruct (connect_keeps_listed_tools "cal" "npx" [] calendar __init__
              (JDict [("jsonrpc", JStr "2.0"); ("id", JInt 1);
                      ("result", JDict [])])
              [("jsonrpc", JStr "2.0"); ("id", JInt 2);
               ("result", JDict [("tools", calendar_tools)])]
              eq_refl eq_refl
              (or_intror (ex_intro _ [("tools", calendar_tools)] eq_refl)))
    as (s' & C & G & _).
  exists s'. split; [exact C|exact G].
Defined.

(** ** Tool calls *)

(** X4: the tool list is kept as it came; when it is a list holding an
    element that is not an object, every [call_tool] on the server,
    whatever the tool asked for, raises AttributeError, and when it is
    null, TypeError: in both cases outside the wrapping "Failed to call
    tool", with nothing sent and the counter as it was. *)
Theorem call_tool_needs_object_tools sn tn a s sv :
  Dict.get sn (servers s) = Some sv ->
  (forall items t,
     available_tools sv = JList items -> In t items ->
     (forall fields, t <> JDict fields) ->
     exists msg, call_tool sn tn a s = (Raise (Exc AttributeError msg), s)) /\
  (available_tools sv = JNull ->
   call_tool sn tn a s =
     (Raise (Exc TypeError "'NoneType' object is not iterable"), s)).
Proof.
  intros Hget. split.
  - intros items t Ha Hin Ht.
    destruct (AnswerFacts.tool_names_not_objects items t Hin Ht) as (msg & E).
    exists msg. apply (CallFacts.call_bad_tool_list sn tn a s sv _ Hget).
    unfold tool_names. rewrite Ha. exact E.
  - intros Ha. apply (CallFacts.call_bad_tool_list sn tn a s sv _ Hget).
    unfold tool_names. rewrite Ha. reflexivity.
Qed.

Lemma call_tool_needs_object_tools_witness :
  let s := connected "s" plain_names __init__ in
  exists msg,
    call_tool "s" "get_events" (JDict []) s =
      (Raise (Exc AttributeError msg), s).
Proof.
  intros s.
  assert (G : Dict.get "s" (servers s) =
              Some (Server (Process 0 true None
                      (Peer [] [] None (Exits 0) None (Exits 0)))
                    "npx" (JList []) (JList [JStr "get_events"])))
    by (vm_compute; reflexivity).
  destruct (call_tool_needs_object_tools "s" "get_events" (JDict []) s _ G)
    as [H _].
  apply (H [JStr "get_events"] (JStr "get_events") eq_refl
           (or_introl eq_refl)).
  discriminate.
Defined.

(** X5: a call for a listed tool whose request gets no answer (the write
    fails, the output is at its end, the line is longer than the limit of
    the stream or does not decode, with the text [m]) raises "Failed to
    call tool '<tool>' on server '<server>': m", having written that one
    request and used one request id; the server stays in the registry with
    its tool list. *)
Theorem call_tool_transport_failure sn tn a s sv names e :
  Dict.get sn (servers s) = Some sv ->
  tool_names sv = Ok names ->
  existsb (Py.is_str tn) names = true ->
  answer (behaviour (process_ sv)) = Raise e ->
  exists s',
    call_tool sn tn a s =
      (Raise (exception
         ("Failed to call tool '" ++ tn ++ "' on server '" ++ sn ++ "': "
          ++ exn_str e)), s') /\
    log s' = (log s ++ [Write (pid (process_ sv))
                          (call_request (request_id s) tn a)])%list /\
    request_id s' = request_id s + 1 /\
    get_available_tools sn s' = (Ok (available_tools sv), s').
Proof.
  intros Hget Hn Hin Ha.
  rewrite (CallFacts.call_listed_tool sn tn a s sv names Hget Hn Hin).
  unfold try_except. unfold bind at 1.
  rewrite HandshakeFacts.next_request_id_effect.
  set (sa := State (servers s) (request_id s + 1) (spawned s) (log s)).
  assert (Ga : Dict.get sn (servers sa) = Some sv) by exact Hget.
  destruct (AnswerFacts.send_request_answer sn
              (request (request_id s + 1) "tools/call"
                 (JDict [("name", JStr tn); ("arguments", a)])) sa sv Ga)
    as (sv' & s' & E & T & A & R & B).
  unfold bind at 1. rewrite E, Ha. unfold raise.
  exists s'. split; [reflexivity|].
  pose proof (touched_get _ _ _ _ _ _ T) as G'.
  split; [apply T|]. split; [exact R|].
  unfold get_available_tools, servers_get, bind, gets, ret.
  rewrite G', A. reflexivity.
Qed.

Lemma call_tool_transport_failure_witness :
  exists s',
    call_tool "cal" "get_events" (JDict []) drained =
      (Raise (exception
         ("Failed to call tool 'get_events' on server 'cal': "
          ++ "Communication error with server: Server closed connection")),
       s') /\
    request_id s' = 5 /\
    get_available_tools "cal" s' = (Ok calendar_tools, s').
Proof.
  assert (G : Dict.get "cal" (servers drained) =
              Some (Server (Process 0 true None
                      (Peer [] [] None TimesOut None (Exits (-15))))
                    "npx" (JList []) calendar_tools))
    by (vm_compute; reflexivity).
  destruct (call_tool_transport_failure "cal" "get_events" (JDict []) drained
              _ [JStr "get_events"; JStr "get_contacts"]
              (exception "Communication error with server: Server closed connection")
              G eq_refl eq_refl eq_refl)
    as (s' & E & _ & R & C).
  exists s'. split; [exact E|]. split; [exact R|exact C].
Defined.

(** ** The registry and the processes *)

(** X6: connecting again under a name already in the registry of a client
    puts the new process in the place of the old one and lets the old one
    go: its process is in no entry afterwards, and whatever the client is
    asked from then on, [disconnect_all] included, nothing is written to
    that process and it is neither closed, awaited nor terminated. *)
Theorem reconnect_orphans_process cs name cmd config b old cs' :
  let s := run cs __init__ in
  Dict.get name (servers s) = Some old ->
  let s' := exec (ConnectServer name cmd config (Ok b)) s in
  ~ In (pid (process_ old)) (registered s') /\
  exists evs,
    log (run cs' s') = (log s' ++ evs)%list /\
    Forall (fun e => event_pid e <> Some (pid (process_ old))) evs.
Proof.
  intros s Hget s'.
  pose proof (RegistryFacts.reachable_distinct cs) as Hd. fold s in Hd.
  destruct (RegistryFacts.exec_registry
              (ConnectServer name cmd config (Ok b)) s Hd)
    as (Hd' & Hsp & _ & _). fold s' in Hd', Hsp.
  assert (Hold : (pid (process_ old) < spawned s)%nat).
  { destruct Hd as [_ Hlt]. rewrite Forall_forall in Hlt.
    apply Hlt. now apply (RegistryFacts.in_registered name). }
  assert (Hgone : ~ In (pid (process_ old)) (registered s')).
  { subst s'. unfold exec.
    destruct (connect_server name cmd config (Ok b) s) as [r s1] eqn:E.
    cbn [snd].
    destruct (ConnectFacts.connect_effect _ _ _ _ _ _ _ E)
      as (sv' & evs & Hs & (Hp & _) & _).
    unfold registered. rewrite Hs.
    apply (RegistryFacts.registered_set_gone name old sv' _ Hget).
    - apply Hd.
    - rewrite <- Hp. cbn. lia. }
  split; [exact Hgone|].
  apply RegistryFacts.run_out_of_reach; [exact Hd'|lia|exact Hgone].
Qed.

Lemma reconnect_orphans_process_witness :
  let s := run [ConnectServer "cal" "npx" [] (Ok calendar)] __init__ in
  let s' := exec (ConnectServer "cal" "npx" [] (Ok calendar)) s in
  ~ In 0%nat (registered s') /\
  exists evs,
    log (run [DisconnectAll] s') = (log s' ++ evs)%list /\
    Forall (fun e => event_pid e <> Some 0%nat) evs.
Proof.
  intros s s'.
  assert (G : Dict.get "cal" (servers s) =
              Some (Server (Process 0 true None
                (Peer [] [reply 3 (JDict [("contacts", JList [])]);
                          error_reply 4 (-32601) "no such tool"]
                      None TimesOut None (Exits (-15))))
                "npx" (JList []) calendar_tools))
    by (vm_compute; reflexivity).
  exact (reconnect_orphans_process
           [ConnectServer "cal" "npx" [] (Ok calendar)]
           "cal" "npx" [] calendar _ [DisconnectAll] G).
Defined.

(** X7: [disconnect_all] raises nothing, and once it has returned,
    whatever the state before, no server is connected: [is_connected] is
    false of every name, [get_available_tools] and [call_tool] raise
    "Server '<name>' not found" and "Server '<name>' not connected"
    without touching the client, and a second [disconnect_all] does
    nothing; the request counter is not set back. *)
Theorem client_after_disconnect_all s s' :
  (forall e, disconnect_all s <> (Raise e, s')) /\
  (disconnect_all s = (Ok tt, s') ->
  (forall name, is_connected name s' = (Ok false, s')) /\
  (forall name,
     get_available_tools name s' =
       (Raise (exception ("Server '" ++ name ++ "' not found")), s')) /\
  (forall sn tn a,
     call_tool sn tn a s' =
       (Raise (exception ("Server '" ++ sn ++ "' not connected")), s')) /\
  disconnect_all s' = (Ok tt, s') /\
  request_id s' = request_id s).
Proof.
  rewrite DisconnectFacts.disconnect_all_effect.
  destruct (existsb stalls (servers s)); (split; [discriminate|]);
    [discriminate|].
  intros [= <-].
  split; [reflexivity|]. split; [reflexivity|]. split; [reflexivity|].
  split; [|reflexivity].
  rewrite DisconnectFacts.disconnect_all_effect. cbn.
  now rewrite List.app_nil_r.
Qed.

Lemma client_after_disconnect_all_witness :
  let s' := snd (disconnect_all cal_state) in
  is_connected "cal" s' = (Ok false, s') /\
  request_id s' = 2.
Proof.
  intros s'.
  destruct (client_after_disconnect_all cal_state s') as (_ & H).
  destruct H as (I & _ & _ & _ & R); [vm_compute; reflexivity|].
  split; [exact (I "cal")|exact R].
Defined.

(** X8: in every state a client reaches from its creation, the entries
    of the registry hold distinct processes, and [disconnect_all] writes
    no request and closes the standard input of processes of the
    registry only, in the order of the registry and each at most once, as
    far as it gets; when it returns it has closed the input of each of
    them, once. *)
Theorem teardown_closes_each_once cs :
  let s := run cs __init__ in
  let evs := teardown_events (servers s) in
  NoDup (registered s) /\
  log (snd (disconnect_all s)) = (log s ++ evs)%list /\
  count_writes evs = 0%nat /\
  (exists rest, registered s = (closed evs ++ rest)%list) /\
  (forall s', disconnect_all s = (Ok tt, s') -> closed evs = registered s).
Proof.
  intros s evs. subst evs.
  pose proof (RunFacts.reachable_pipes_open cs) as Hp. fold s in Hp.
  split; [apply (RegistryFacts.reachable_distinct cs)|].
  split; [apply DisconnectFacts.disconnect_all_log|].
  split; [apply DisconnectFacts.teardown_events_no_write|].
  split; [exact (RegistryFacts.teardown_closed_prefix _ Hp)|].
  intros s'. rewrite DisconnectFacts.disconnect_all_effect.
  destruct (existsb stalls (servers s)) eqn:E; [discriminate|]. intros _.
  rewrite (DisconnectFacts.teardown_all _ E).
  exact (RegistryFacts.teardown_closed _ Hp).
Qed.

Lemma teardown_closes_each_once_witness :
  let s := run two_connects __init__ in
  disconnect_all s = (Ok tt, snd (disconnect_all s)) /\
  closed (teardown_events (servers s)) = [0; 1]%nat.
Proof.
  intros s.
  assert (E : disconnect_all s = (Ok tt, snd (disconnect_all s)))
    by (vm_compute; reflexivity).
  split; [exact E|].
  destruct (teardown_closes_each_once two_connects) as (_ & _ & _ & _ & H).
  exact (eq_trans (H _ E) eq_refl).
Defined.

(** * Properties of the list of servers and of the gathering of context *)

Import Config ResearchAgent.

(** X9: [load_mcp_servers] heeds "enabled" only in a file that is an
    object with a "servers" list: of its entries, all objects, it returns
    in order those whose "enabled" is absent or true in the sense of [if]
    (false, null, 0, an empty string, list or object switch an entry
    off), and it raises AttributeError if an entry is not an object.  A
    file that is a list is returned whole, whatever "enabled" says, and an
    object without "servers" gives the empty list. *)
Theorem load_mcp_servers_enabled_flag :
  (forall items, load_mcp_servers (Loaded (JList items)) = Ok items) /\
  (forall fields entries,
     Dict.get "servers" fields = Some (JList entries) ->
     if forallb is_object entries
     then load_mcp_servers (Loaded (JDict fields)) = Ok (filter kept entries)
     else exists msg,
       load_mcp_servers (Loaded (JDict fields)) =
         Raise (Exc AttributeError msg)) /\
  (forall fields,
     Dict.get "servers" fields = None ->
     load_mcp_servers (Loaded (JDict fields)) = Ok []).
Proof.
  split; [reflexivity|]. split.
  - intros fields entries H.
    unfold load_mcp_servers, Dict.mem, Py.getitem. rewrite H.
    cbn [Py.iter].
    destruct (forallb is_object entries) eqn:E.
    + now apply ConfigFacts.filter_objects.
    + now apply ConfigFacts.filter_not_object.
  - intros fields H. unfold load_mcp_servers, Dict.mem. now rewrite H.
Qed.

Lemma load_mcp_servers_enabled_flag_witness :
  load_mcp_servers (Loaded (JDict [("servers", JList three_entries)])) =
    Ok [JDict [("name", JStr "mail"); ("command", JStr "npx");
               ("args", JList [JStr "-y"; JStr "mail-server"])]] /\
  load_mcp_servers (Loaded (JList three_entries)) = Ok three_entries.
Proof.
  destruct load_mcp_servers_enabled_flag as (L & S & _).
  split; [|apply L].
  exact (S [("servers", JList three_entries)] three_entries eq_refl).
Defined.

(** X11: one server that fails to connect empties the context of all:
    when the servers before it in the list have connected, no server is
    asked anything, the context returned is empty, the servers after it
    are not started, and the servers before it stay in the registry. *)
Theorem failed_connect_empties_context pre sc post os s sp e s1 :
  connect_all 0 pre os s = (Ok tt, sp) ->
  connect_server (cfg_name sc) (cfg_command sc) (cfg_config sc)
    (os (Datatypes.length pre)) sp = (Raise e, s1) ->
  gather_context (Ok (pre ++ sc :: post)%list) os s =
    (Ok [], with_log s1 (log s1 ++ [warning e])%list) /\
  (forall c, In c pre -> Dict.mem (cfg_name c) (servers s1) = true) /\
  (spawned s1 <= spawned s + Datatypes.length pre + 1)%nat.
Proof.
  intros Hpre Hsc.
  destruct (ResearchFacts.connect_all_registers _ _ _ _ _ Hpre)
    as (_ & N & R).
  destruct (ResearchFacts.connect_keeps_names _ _ _ _ _ _ _ Hsc)
    as (K1 & N1 & _).
  split; [|split].
  - unfold gather_context. unfold bind at 1, lift. unfold bind at 1.
    rewrite ResearchFacts.connect_all_app, Hpre.
    cbn [connect_all Nat.add]. unfold bind at 1. rewrite Hsc. reflexivity.
  - intros c Hc. apply K1. now apply R.
  - lia.
Qed.

Lemma failed_connect_empties_context_witness :
  fst (gather_context (Ok [calendar_config; mail_config; github_config])
         second_fails __init__) = Ok [] /\
  Dict.mem "Google-Calendar"
    (servers (snd (gather_context
                     (Ok [calendar_config; mail_config; github_config])
                     second_fails __init__))) = true.
Proof.
  destruct (failed_connect_empties_context [calendar_config] mail_config
              [github_config] second_fails __init__
              (snd (connect_all 0 [calendar_config] second_fails __init__))
              (exception
                 ("Failed to connect to MCP server 'mail': "
                  ++ "Failed to initialize server 'mail': "
                  ++ "Invalid JSON response from server: "
                  ++ "Expecting value: line 1 column 1 (char 0)"))
              (snd (connect_server "mail" "npx" [] (Ok garbled)
                 (snd (connect_all 0 [calendar_config] second_fails
                         __init__)))))
    as (E & R & _).
  - vm_compute. reflexivity.
  - vm_compute. reflexivity.
  - cbn [app] in E. rewrite E. cbn [fst snd]. split; [reflexivity|].
    apply (R calendar_config). now left.
Defined.



(** X13: the arguments and the environment of a server are taken from
    the "config" of its entry and from nowhere else: an entry without
    "config" has its process started with no argument and no variable
    added to the environment, whatever "args" and "env" the entry itself
    holds. *)
Theorem arguments_outside_config_unused fields sc os i s b :
  read_config (JDict fields) = Some sc ->
  Dict.get "config" fields = None ->
  os i = Ok b ->
  exists evs,
    log (snd (connect_all i [sc] os s)) =
      (log s ++ Spawn (spawned s) (cfg_command sc) (JList []) (JDict [])
               :: evs)%list.
Proof.
  intros Hread Hconfig Hos.
  unfold read_config, Dict.get_or in Hread. rewrite Hconfig in Hread.
  destruct (Dict.get "name" fields) as [[| | |name| |]|]; try discriminate.
  destruct (Dict.get "command" fields) as [[| | |cmd| |]|]; try discriminate.
  injection Hread as <-.
  cbn [connect_all cfg_name cfg_command cfg_config]. rewrite Hos. unfold bind.
  destruct (connect_server name cmd [] (Ok b) s) as [r s'] eqn:E.
  destruct (ConnectFacts.connect_effect _ _ _ _ _ _ _ E)
    as (sv' & evs & _ & _ & _ & Hl & _).
  exists evs. destruct r; cbn [snd ret]; exact Hl.
Qed.

Lemma arguments_outside_config_unused_witness :
  exists evs,
    log (snd (connect_all 0 [mail_config] (fun _ => Ok calendar) __init__)) =
      Spawn 0 "npx" (JList []) (JDict []) :: evs.
Proof.
  exact (arguments_outside_config_unused
           [("name", JStr "mail"); ("command", JStr "npx");
            ("args", JList [JStr "-y"; JStr "mail-server"])]
           mail_config (fun _ => Ok calendar) 0%nat __init__ calendar
           eq_refl eq_refl eq_refl).
Defined.
